(** * Receipt OCR ensemble: [image_recognition_commandr.py]

    A shallow embedding of the two request/response functions of the script
    ([describe_image_with_model], [select_best_output_with_command_r]) and of
    its driver loop, with the properties the specification states about
    them.

    Python values that cross the functions are modelled by [pyval]; the
    effects of the script (opening the image, posting a request, printing)
    are threaded through a small trace-and-exception monad [M]; the outside
    world (the files that exist, what the provider answers) is a [world]. *)

From Stdlib Require Import String Ascii List ZArith NArith Lia Bool.
From Stdlib Require Import Strings.Byte.
From Stdlib Require Import DecimalString DecimalZ SpecFloat.
Import ListNotations.

Local Open Scope string_scope.
Local Open Scope Z_scope.

(** ** Strings *)

(** The line feed, written [\n] in the source. *)
Definition nl : string := String (ascii_of_nat 10) EmptyString.

(** [sep.join(parts)]. *)
Fixpoint join (sep : string) (parts : list string) : string :=
  match parts with
  | [] => EmptyString
  | [p] => p
  | p :: rest => p ++ sep ++ join sep rest
  end.

(** [str(n)] for a Python [int]: decimal digits, a leading [-] when
    negative, no leading zeros. *)
Definition str_int (n : Z) : string :=
  NilEmpty.string_of_int (Z.to_int n).

(** [x] occurs in [s] as a contiguous piece. *)
Definition occurs_in (x s : string) : Prop :=
  exists pre post, s = pre ++ x ++ post.

(** ** Python values *)

(** The values [json.loads] produces and [json.dumps] accepts.  A [dict]
    keeps its entries in insertion order and its keys are strings and
    distinct; a lookup finds the entry with the given key. *)
#[warnings="-register-all"]
Inductive pyval : Type :=
| PyNone
| PyBool (b : bool)
| PyInt (n : Z)
| PyFloat (x : spec_float)
| PyStr (s : string)
| PyList (items : list pyval)
| PyDict (entries : list (string * pyval)).

(** ** Exceptions *)

(** The exceptions the script can meet.  [RequestException] stands for
    [requests.exceptions.RequestException] and all its subclasses (timeouts,
    connection errors, ...) and carries [str(e)]; [FileNotFoundError],
    [IsADirectoryError], [NotADirectoryError], [PermissionError] and
    [ValueError] are what [open] raises for a path it cannot open;
    [OtherError] is any exception outside these that the library may
    raise. *)
Inductive exn : Type :=
| RequestException (msg : string)
| FileNotFoundError (path : string)
| IsADirectoryError (path : string)
| NotADirectoryError (path : string)
| PermissionError (path : string)
| ValueError (msg : string)
| KeyError (key : pyval)
| IndexError
| TypeError
| OtherError (msg : string).

Inductive outcome (A : Type) : Type :=
| Ok (a : A)
| Raise (e : exn).
Arguments Ok {A} a.
Arguments Raise {A} e.

(** ** Subscripting: [v[key]] *)

Fixpoint dict_get (entries : list (string * pyval)) (key : string)
  : option pyval :=
  match entries with
  | [] => None
  | (k, v) :: rest => if String.eqb k key then Some v else dict_get rest key
  end.

(** [v['key']]: a dict is looked up, anything else cannot be indexed by a
    string. *)
Definition getitem_str (v : pyval) (key : string) : outcome pyval :=
  match v with
  | PyDict entries =>
      match dict_get entries key with
      | Some x => Ok x
      | None => Raise (KeyError (PyStr key))
      end
  | _ => Raise TypeError
  end.

(** The number of bytes of the UTF-8 character that starts with byte [c]. *)
Definition utf8_width (c : ascii) : nat :=
  let n := N_of_ascii c in
  if (n <? 192)%N then 1%nat
  else if (n <? 224)%N then 2%nat
  else if (n <? 240)%N then 3%nat
  else 4%nat.

(** The characters of a [str], each kept as its UTF-8 bytes. *)
Fixpoint str_chars_fuel (fuel : nat) (s : string) : list string :=
  match fuel, s with
  | O, _ => []
  | _, EmptyString => []
  | S fuel', String c _ =>
      let w := utf8_width c in
      substring 0 w s :: str_chars_fuel fuel' (substring w (String.length s - w) s)
  end.

Definition str_chars (s : string) : list string :=
  str_chars_fuel (String.length s) s.

(** [seq[i]] on a sequence of length [len]: negative indices count from
    the end, anything outside raises [IndexError]. *)
Definition seq_index {A : Type} (l : list A) (i : Z) : option A :=
  let len := Z.of_nat (List.length l) in
  let j := if i <? 0 then i + len else i in
  if (0 <=? j) && (j <? len) then nth_error l (Z.to_nat j) else None.

(** [v[i]] with an [int]: lists and strings are sequences; a dict whose
    keys are all strings has no such key; other values cannot be indexed. *)
Definition getitem_int (v : pyval) (i : Z) : outcome pyval :=
  match v with
  | PyList items =>
      match seq_index items i with
      | Some x => Ok x
      | None => Raise IndexError
      end
  | PyStr s =>
      match seq_index (str_chars s) i with
      | Some ch => Ok (PyStr ch)
      | None => Raise IndexError
      end
  | PyDict _ => Raise (KeyError (PyInt i))
  | _ => Raise TypeError
  end.

(** ** Base64 ([base64.b64encode], RFC 4648 with padding) *)

Definition b64_alphabet : string :=
  "ABCDEFGHIJKLMNOPQRSTUVWXYZabcdefghijklmnopqrstuvwxyz0123456789+/".

(** The character of a 6-bit value. *)
Definition b64_char (n : N) : ascii :=
  match String.get (N.to_nat (N.land n 63)) b64_alphabet with
  | Some c => c
  | None => "="%char
  end.

Fixpoint b64encode (bs : list byte) : string :=
  match bs with
  | [] => EmptyString
  | [a] =>
      let n := N.shiftl (Byte.to_N a) 16 in
      String (b64_char (N.shiftr n 18))
        (String (b64_char (N.shiftr n 12)) "==")
  | [a; b] =>
      let n := N.lor (N.shiftl (Byte.to_N a) 16) (N.shiftl (Byte.to_N b) 8) in
      String (b64_char (N.shiftr n 18))
        (String (b64_char (N.shiftr n 12))
           (String (b64_char (N.shiftr n 6)) "="))
  | a :: b :: c :: rest =>
      let n := N.lor (N.lor (N.shiftl (Byte.to_N a) 16)
                        (N.shiftl (Byte.to_N b) 8)) (Byte.to_N c) in
      String (b64_char (N.shiftr n 18))
        (String (b64_char (N.shiftr n 12))
           (String (b64_char (N.shiftr n 6))
              (String (b64_char n) (b64encode rest))))
  end.

(** ** The outside world and the effects of the script *)

(** What [requests.post] is called with.  [data] is the payload that the
    source passes through [json.dumps]; the request records the payload
    value itself. *)
Record request : Type := {
  url : string;
  headers : list (string * string);
  data : pyval;
  timeout : Z
}.

(** What [requests.post] returns: [response.status_code], [response.text]
    and the outcome of [response.json()]. *)
Record response : Type := {
  status_code : Z;
  text : string;
  json : outcome pyval
}.

Inductive event : Type :=
| Opened (path : string)
| Posted (req : request)
| Printed (line : string).

Definition trace : Type := list event.

(** Why [open(path, 'rb')] refuses a path at which something exists, or
    that it cannot even look up. *)
Inductive refusal : Type :=
| IsADirectory
| NotADirectory
| PermissionDenied
| EmbeddedNull.

(** The world: the readable files with their bytes; for a path that names
    no readable file, the reason [open] refuses it when there is one
    ([None]: nothing exists at the path); and the outcome of a request
    given everything the script did before it (a provider need not answer
    the same request twice the same way). *)
Record world : Type := {
  fs : string -> option (list byte);
  blocked : string -> option refusal;
  net : trace -> request -> outcome response
}.

(** The exception [open(path, 'rb')] raises for a path that names no
    readable file. *)
Definition open_failure (w : world) (path : string) : exn :=
  match blocked w path with
  | None => FileNotFoundError path
  | Some IsADirectory => IsADirectoryError path
  | Some NotADirectory => NotADirectoryError path
  | Some PermissionDenied => PermissionError path
  | Some EmbeddedNull => ValueError "embedded null byte"
  end.

(** Computations: they extend the trace and return a value or raise. *)
Definition M (A : Type) : Type := trace -> trace * outcome A.

Definition ret {A : Type} (a : A) : M A := fun tr => (tr, Ok a).

Definition raise {A : Type} (e : exn) : M A := fun tr => (tr, Raise e).

Definition bind {A B : Type} (m : M A) (k : A -> M B) : M B :=
  fun tr =>
    match m tr with
    | (tr', Ok a) => k a tr'
    | (tr', Raise e) => (tr', Raise e)
    end.

(** A pure step that may raise. *)
Definition lift {A : Type} (r : outcome A) : M A := fun tr => (tr, r).

(** [try: body except <class> as e: handler e]; [handler] answers [None]
    for an exception the [except] clause does not match. *)
Definition try_except {A : Type} (body : M A) (handler : exn -> option (M A))
  : M A :=
  fun tr =>
    match body tr with
    | (tr', Ok a) => (tr', Ok a)
    | (tr', Raise e) =>
        match handler e with
        | Some h => h tr'
        | None => (tr', Raise e)
        end
    end.

Declare Scope py_scope.
Delimit Scope py_scope with py.
Notation "x <- m ;; k" := (bind m (fun x => k))
  (at level 100, m at next level, right associativity) : py_scope.
Notation "m ;;; k" := (bind m (fun _ => k))
  (at level 100, right associativity) : py_scope.

(** The requests posted along a trace, oldest first. *)
Fixpoint posts (tr : trace) : list request :=
  match tr with
  | [] => []
  | Posted req :: rest => req :: posts rest
  | _ :: rest => posts rest
  end.

(** The paths opened along a trace, oldest first. *)
Fixpoint opens (tr : trace) : list string :=
  match tr with
  | [] => []
  | Opened path :: rest => path :: opens rest
  | _ :: rest => opens rest
  end.

(** [except requests.exceptions.RequestException as e]. *)
Definition except_RequestException {A : Type} (handler : string -> M A)
  (e : exn) : option (M A) :=
  match e with
  | RequestException msg => Some (handler msg)
  | _ => None
  end.

(** [lines] each followed by a line feed. *)
Definition unlines (lines : list string) : string :=
  String.concat EmptyString (List.map (fun l => l ++ nl) lines).

(** [enumerate(l)], counting from [i]. *)
Fixpoint enumerate_from {A : Type} (i : Z) (l : list A) : list (Z * A) :=
  match l with
  | [] => []
  | x :: rest => (i, x) :: enumerate_from (i + 1) rest
  end.

Definition enumerate {A : Type} (l : list A) : list (Z * A) :=
  enumerate_from 0 l.

(** ** The script *)

Definition OPENROUTER_API_KEY : string := "Your-API".

Definition chat_completions_url : string :=
  "https://openrouter.ai/api/v1/chat/completions".

Definition request_headers : list (string * string) :=
  [ ("Authorization", "Bearer " ++ OPENROUTER_API_KEY);
    ("Content-Type", "application/json") ].

(** [result['choices'][0]['message']['content']]. *)
Definition first_choice_content (result : pyval) : outcome pyval :=
  match getitem_str result "choices" with
  | Raise e => Raise e
  | Ok choices =>
      match getitem_int choices 0 with
      | Raise e => Raise e
      | Ok choice =>
          match getitem_str choice "message" with
          | Raise e => Raise e
          | Ok message => getitem_str message "content"
          end
      end
  end.

(** The text returned for a response whose status is not 200. *)
Definition status_failure_text (r : response) : string :=
  "Request failed with status code " ++ str_int (status_code r) ++ ": "
  ++ text r.

(** The text returned for a caught [RequestException]. *)
Definition exception_failure_text (msg : string) : string :=
  "Request failed due to an exception: " ++ msg.

(** The payload of [describe_image_with_model]. *)
Definition describe_payload (model_name instruction image_content : string)
  : pyval :=
  PyDict
    [ ("model", PyStr model_name);
      ("messages",
        PyList
          [ PyDict
              [ ("role", PyStr "user");
                ("content",
                  PyList
                    [ PyDict [ ("type", PyStr "text");
                               ("text", PyStr instruction) ];
                      PyDict [ ("type", PyStr "image_url");
                               ("image_url",
                                 PyDict [ ("url", PyStr image_content) ]) ] ])
              ] ]) ].

(** The lines of the judge instruction that precede the candidates (the
    f-string of [select_best_output_with_command_r] up to
    [{formatted_outputs}]). *)
Definition instruction_head : list string :=
  [ EmptyString;
    "                    You are a decision engine called Command-R.";
    EmptyString;
    "                    Your task is to analyze multiple LaTeX tables extracted from a receipt and select the most accurate and complete one. ";
    EmptyString;
    "                    ### **Receipt Item Details**";
    "                    - Each item is represented in the receipt as a line containing:";
    "                    - `Item Code`: A unique numeric or alphanumeric code.";
    "                    - `Item Name`: The name of the product.";
    "                    - `Item Price`: The price of the product in the format `X.XX EUR`.";
    "                    ";
    "                    ### **Accuracy Validation Criteria**";
    "                    1. The LaTeX table must match the receipt format:";
    "                    - Each row in the table must correspond to an item in the receipt with `Item Code`, `Item Name`, and `Item Price`.";
    "                    - The **Total Price** must match the sum of all items in the receipt.";
    "                    2. Items must:";
    "                    - Have unique `Item Codes`.";
    "                    - Contain clear, descriptive `Item Names` without truncations or inaccuracies.";
    "                    - Include correct `Item Prices` as per the receipt.";
    "                    3. The table structure must:";
    "                    - Start with the headers: `Item Code`, `Item Name`, `Item Price`, `Total Price`.";
    "                    - Include a **final row** with the Total Price clearly labeled.";
    EmptyString;
    "                    ### **Instructions**";
    "                    - Analyze the LaTeX tables below.";
    "                    - Compare the tables for both logical accuracy and structural correctness.";
    "                    - Return only the LaTeX code of the best table. If no table meets the criteria, return an empty response.";
    "                    - Do not include any explanations or additional text.";
    EmptyString;
    "                    ### **LaTeX Tables to Analyze**" ].

(** The payload of [select_best_output_with_command_r]. *)
Definition select_payload (instruction : string) : pyval :=
  PyDict
    [ ("model", PyStr "cohere/command-r");
      ("messages",
        PyList
          [ PyDict [ ("role", PyStr "user");
                     ("content", PyStr instruction) ] ]) ].

(** One entry of [models]: a dict with the keys [name] and [description]. *)
Record model_entry : Type := {
  name : string;
  description : string
}.

(** Instructions for the OCR models. *)
Definition instruction : string :=
  unlines
  [ "Extract the following information from this receipt:";
    "1. Item Code: A unique code that corresponds to each individual item. Each item has only one unique code.";
    "2. Item Name: The name of the item as it appears on the receipt.";
    "3. Item Price: The price of each item as listed on the receipt.";
    "4. Total Price: The final price at the bottom of the receipt.";
    EmptyString;
    "Organize the extracted data into a LaTeX table format with the following headers: `Item Code`, `Item Name`, `Item Price`, and `Total Price`. Ensure that:";
    "- Each row corresponds to a specific item on the receipt.";
    "- Each item has only one unique code.";
    "- The final row includes the total price.";
    EmptyString;
    "Return only the LaTeX code for the table. Do not include any preamble, explanations, or additional text.";
    EmptyString ].

(** Path to the receipt image. *)
Definition image_path : string := "data/receipt4.jpeg".

(** List of models to be tested. *)
Definition models : list model_entry :=
  [ {| name := "mistralai/pixtral-12b"; description := "PixTral 12B" |};
    {| name := "qwen/qwen-2-vl-7b-instruct"; description := "Qwen-2V" |};
    {| name := "meta-llama/llama-3.2-11b-vision-instruct:free";
       description := "LLaMA-3.2" |} ].

Section Script.

(** The world the script runs in. *)
Variable w : world.

(** [str(v)] for a float, a list or a dict (the interpreter's [repr]
    machinery, which the script does not define). *)
Variable repr_other : pyval -> string.

(** [str(v)], as an f-string formats [{v}]. *)
Definition py_str (v : pyval) : string :=
  match v with
  | PyStr s => s
  | PyNone => "None"
  | PyBool true => "True"
  | PyBool false => "False"
  | PyInt n => str_int n
  | _ => repr_other v
  end.

(** [with open(path, 'rb') as f: f.read()]. *)
Definition open_read (path : string) : M (list byte) :=
  fun tr =>
    ((tr ++ [Opened path])%list,
     match fs w path with
     | Some bytes => Ok bytes
     | None => Raise (open_failure w path)
     end).

(** [requests.post(url=..., headers=..., data=json.dumps(payload), timeout=...)]. *)
Definition requests_post (req : request) : M response :=
  fun tr => ((tr ++ [Posted req])%list, net w tr req).

(** [print(line)]. *)
Definition print (line : string) : M unit :=
  fun tr => ((tr ++ [Printed line])%list, Ok tt).

Local Open Scope py_scope.

Definition describe_image_with_model (image_path model_name instruction : string)
  : M pyval :=
  image_bytes <- open_read image_path ;;
  let image_data := b64encode image_bytes in
  let image_content := "data:image/jpeg;base64," ++ image_data in
  let payload := describe_payload model_name instruction image_content in
  let headers := request_headers in
  try_except
    (response <- requests_post {| url := chat_completions_url;
                                  headers := headers;
                                  data := payload;
                                  timeout := 60 |} ;;
     if status_code response =? 200 then
       result <- lift (json response) ;;
       lift (first_choice_content result)
     else
       ret (PyStr (status_failure_text response)))
    (except_RequestException
       (fun e => ret (PyStr (exception_failure_text e)))).

(** [formatted_outputs] of [select_best_output_with_command_r]. *)
Definition formatted_outputs (outputs : list pyval) : string :=
  join (nl ++ nl)
    (List.map (fun '(i, output) =>
                 "Option " ++ str_int (i + 1) ++ ":" ++ nl ++ py_str output)
       (enumerate outputs)).

(** The local [instruction] of [select_best_output_with_command_r]. *)
Definition command_r_instruction (outputs : list pyval) : string :=
  unlines instruction_head ++ formatted_outputs outputs ++ nl ++ nl ++ "    ".

Definition select_best_output_with_command_r (outputs : list pyval) : M pyval :=
  let instruction := command_r_instruction outputs in
  let payload := select_payload instruction in
  let headers := request_headers in
  try_except
    (response <- requests_post {| url := chat_completions_url;
                                  headers := headers;
                                  data := payload;
                                  timeout := 60 |} ;;
     if status_code response =? 200 then
       result <- lift (json response) ;;
       lift (first_choice_content result)
     else
       ret (PyStr (status_failure_text response)))
    (except_RequestException
       (fun e => ret (PyStr (exception_failure_text e)))).

(** The loop [for model in models], entered with the [outputs] collected
    so far. *)
Fixpoint collect_outputs (image_path instruction : string)
  (models : list model_entry) (outputs : list pyval) : M (list pyval) :=
  match models with
  | [] => ret outputs
  | model :: rest =>
      print (nl ++ "=== Processing with " ++ description model ++ " ===") ;;;
      output <- describe_image_with_model image_path (name model) instruction ;;
      let outputs := (outputs ++ [output])%list in
      print (nl ++ "LaTeX output from " ++ description model ++ ":" ++ nl
             ++ py_str output ++ nl) ;;;
      collect_outputs image_path instruction rest outputs
  end.

(** The top level of the script, for any image, instruction and list of
    models; it ends with the values of [outputs] and [best_output]. *)
Definition run_script (image_path instruction : string)
  (models : list model_entry) : M (list pyval * pyval) :=
  outputs <- collect_outputs image_path instruction models [] ;;
  print (nl ++ "=== Selecting the best LaTeX output using Command-R ===" ++ nl) ;;;
  best_output <- select_best_output_with_command_r outputs ;;
  print (nl ++ "=== Best LaTeX Table ===" ++ nl) ;;;
  print (py_str best_output) ;;;
  ret (outputs, best_output).

(** The script as written, with its own image, instruction and models. *)
Definition main : M (list pyval * pyval) :=
  run_script image_path instruction models.

End Script.

(** ** Vocabulary of the properties *)

(** The request [describe_image_with_model] posts for an image with the
    given bytes. *)
Definition describe_request (model_name instruction : string)
  (image_bytes : list byte) : request :=
  {| url := chat_completions_url;
     headers := request_headers;
     data := describe_payload model_name instruction
               ("data:image/jpeg;base64," ++ b64encode image_bytes);
     timeout := 60 |}.

(** The request [select_best_output_with_command_r] posts for a judge
    instruction. *)
Definition judge_request (instruction : string) : request :=
  {| url := chat_completions_url;
     headers := request_headers;
     data := select_payload instruction;
     timeout := 60 |}.

(** [payload['messages'][0]['content'][1]['image_url']['url']]: the image
    item of an extraction payload. *)
Definition payload_image_url (payload : pyval) : outcome pyval :=
  match getitem_str payload "messages" with
  | Raise e => Raise e
  | Ok messages =>
      match getitem_int messages 0 with
      | Raise e => Raise e
      | Ok message =>
          match getitem_str message "content" with
          | Raise e => Raise e
          | Ok content =>
              match getitem_int content 1 with
              | Raise e => Raise e
              | Ok item =>
                  match getitem_str item "image_url" with
                  | Raise e => Raise e
                  | Ok image_url => getitem_str image_url "url"
                  end
              end
          end
      end
  end.

(** [payload['messages'][0]['content']]: the instruction a judge payload
    carries. *)
Definition payload_instruction (payload : pyval) : outcome pyval :=
  match getitem_str payload "messages" with
  | Raise e => Raise e
  | Ok messages =>
      match getitem_int messages 0 with
      | Raise e => Raise e
      | Ok message => getitem_str message "content"
      end
  end.

(** A failure text of the Extractor: what it returns for a status other
    than 200, or for a [RequestException]. *)
Definition extractor_failure_text (s : string) : Prop :=
  (exists r, s = status_failure_text r)
  \/ (exists msg, s = exception_failure_text msg).

(** What either function returns for an outcome of the post: the [try]
    block of the source, read as a function of that outcome. *)
Definition answer (o : outcome response) : outcome pyval :=
  match o with
  | Ok r =>
      if status_code r =? 200 then
        match json r with
        | Ok payload => first_choice_content payload
        | Raise (RequestException msg) => Ok (PyStr (exception_failure_text msg))
        | Raise e => Raise e
        end
      else Ok (PyStr (status_failure_text r))
  | Raise (RequestException msg) => Ok (PyStr (exception_failure_text msg))
  | Raise e => Raise e
  end.

(** The payload carries a first completion choice with a message content:
    it is a dict whose ['choices'] is a list that starts with a dict whose
    ['message'] is a dict with a ['content']. *)
Definition has_first_choice_content (payload content : pyval) : Prop :=
  exists entries choice others message,
    payload = PyDict entries /\
    dict_get entries "choices" = Some (PyList (PyDict choice :: others)) /\
    dict_get choice "message" = Some (PyDict message) /\
    dict_get message "content" = Some content.

(** A success payload without a first choice's message content, with the
    exception the unguarded indexing meets on it. *)
Inductive lacks_first_choice_content : pyval -> exn -> Prop :=
| lacks_choices : forall entries,
    dict_get entries "choices" = None ->
    lacks_first_choice_content (PyDict entries) (KeyError (PyStr "choices"))
| empty_choices : forall entries,
    dict_get entries "choices" = Some (PyList []) ->
    lacks_first_choice_content (PyDict entries) IndexError
| lacks_message : forall entries choice others,
    dict_get entries "choices" = Some (PyList (PyDict choice :: others)) ->
    dict_get choice "message" = None ->
    lacks_first_choice_content (PyDict entries) (KeyError (PyStr "message"))
| lacks_content : forall entries choice others message,
    dict_get entries "choices" = Some (PyList (PyDict choice :: others)) ->
    dict_get choice "message" = Some (PyDict message) ->
    dict_get message "content" = None ->
    lacks_first_choice_content (PyDict entries) (KeyError (PyStr "content")).

(** An index error or a key error. *)
Definition index_or_key_error (e : exn) : Prop :=
  e = IndexError \/ exists key, e = KeyError key.

(** The provider call failed at the transport level: a response whose
    status is not 200, or a [RequestException] raised by the post. *)
Definition transport_failure (o : outcome response) : Prop :=
  match o with
  | Ok r => status_code r <> 200
  | Raise (RequestException _) => True
  | Raise _ => False
  end.

(** The block of the judge instruction for the candidate at 1-based
    position [pos]: its label, then its text. *)
Definition option_block (pos : Z) (candidate : string) : string :=
  "Option " ++ str_int pos ++ ":" ++ nl ++ candidate.

(** The exceptions subscripting can raise. *)
Definition lookup_error (e : exn) : Prop :=
  match e with
  | KeyError _ | IndexError | TypeError => True
  | _ => False
  end.

(** No colon occurs in [s]. *)
Fixpoint colon_free (s : string) : Prop :=
  match s with
  | EmptyString => True
  | String c rest => c <> ":"%char /\ colon_free rest
  end.


(** The pieces of a joined string before and after one of its parts. *)
Fixpoint lead (sep : string) (parts : list string) : string :=
  match parts with
  | [] => EmptyString
  | p :: rest => p ++ sep ++ lead sep rest
  end.

Fixpoint trail (sep : string) (parts : list string) : string :=
  match parts with
  | [] => EmptyString
  | p :: rest => sep ++ p ++ trail sep rest
  end.

(** The blocks of the candidates [l], the first one at position [i + 1]. *)
Definition blocks_from (repr_other : pyval -> string) (i : Z) (l : list pyval)
  : list string :=
  List.map (fun '(i, output) =>
              "Option " ++ str_int (i + 1) ++ ":" ++ nl ++ py_str repr_other output)
    (enumerate_from i l).

(** Stated from the specification: the Extractor runs once per provider,
    in list order, each call entered after the previous one has returned,
    and the output of the call for a provider is collected at that
    provider's position.  The traces are those before the first call and
    after the last; the driver prints a line before and after each call. *)
Inductive extracted_in_order (w : world) (image_path instruction : string)
  : trace -> list model_entry -> list pyval -> trace -> Prop :=
| extracted_none : forall tr,
    extracted_in_order w image_path instruction tr [] [] tr
| extracted_next : forall tr model rest output outputs before after tr_done tr_end,
    describe_image_with_model w image_path (name model) instruction
      (tr ++ [Printed before])%list = (tr_done, Ok output) ->
    extracted_in_order w image_path instruction
      (tr_done ++ [Printed after])%list rest outputs tr_end ->
    extracted_in_order w image_path instruction
      tr (model :: rest) (output :: outputs) tr_end.

(** ** Concrete worlds *)

Definition dq : string := String (ascii_of_nat 34) EmptyString.

Definition quoted (s : string) : string := dq ++ s ++ dq.

(** The first bytes of a JPEG file and of a PNG file. *)
Definition jpeg_bytes : list byte := [xff; xd8; xff; xe0; x00; x10].
Definition png_bytes : list byte := [x89; x50; x4e; x47; x0d; x0a; x1a; x0a].

Definition no_files : string -> option (list byte) := fun _ => None.

(** Nothing exists at a path that names no readable file. *)
Definition nothing_blocked : string -> option refusal := fun _ => None.


Definition one_file (path : string) (content : list byte)
  : string -> option (list byte) :=
  fun p => if String.eqb p path then Some content else None.

(** A provider that gives the same outcome to every request. *)
Definition always (o : outcome response) : trace -> request -> outcome response :=
  fun _ _ => o.

(** A chat completion whose first choice carries [content]. *)
Definition completion_payload (content : string) : pyval :=
  PyDict
    [ ("id", PyStr "gen-1");
      ("choices",
        PyList
          [ PyDict [ ("index", PyInt 0);
                     ("message",
                       PyDict [ ("role", PyStr "assistant");
                                ("content", PyStr content) ]) ] ]) ].

Definition completion (content : string) : response :=
  {| status_code := 200;
     text := "{" ++ quoted "id" ++ ": " ++ quoted "gen-1" ++ ", "
             ++ quoted "choices" ++ ": [{" ++ quoted "index" ++ ": 0, "
             ++ quoted "message" ++ ": {" ++ quoted "role" ++ ": "
             ++ quoted "assistant" ++ ", " ++ quoted "content" ++ ": "
             ++ quoted content ++ "}}]}";
     json := Ok (completion_payload content) |}.

(** A 500 answer whose body is not JSON. *)
Definition server_error : response :=
  {| status_code := 500;
     text := "error";
     json := Raise (RequestException "Expecting value: line 1 column 1 (char 0)") |}.

(** A 200 answer with no choice. *)
Definition no_choices : response :=
  {| status_code := 200;
     text := "{" ++ quoted "choices" ++ ": []}";
     json := Ok (PyDict [ ("choices", PyList []) ]) |}.

Definition read_timeout : exn :=
  RequestException "Read timed out. (read timeout=60)".

(** [payload['model']] of a request. *)
Definition requested_model (req : request) : string :=
  match getitem_str (data req) "model" with
  | Ok (PyStr model_name) => model_name
  | _ => EmptyString
  end.

(** A provider where the first model and the judge answer with a table,
    the second model answers 500 and the third times out. *)
Definition ensemble_net : trace -> request -> outcome response :=
  fun _ req =>
    if String.eqb (requested_model req) "qwen/qwen-2-vl-7b-instruct"
    then Ok server_error
    else if String.eqb (requested_model req)
              "meta-llama/llama-3.2-11b-vision-instruct:free"
    then Raise read_timeout
    else Ok (completion "<table A>").

Definition world_ok : world :=
  {| fs := one_file image_path jpeg_bytes; blocked := nothing_blocked;
     net := always (Ok (completion "<table A>")) |}.

Definition world_png : world :=
  {| fs := one_file "scan.png" png_bytes; blocked := nothing_blocked;
     net := always (Ok (completion "<table A>")) |}.

Definition world_500 : world :=
  {| fs := one_file image_path jpeg_bytes; blocked := nothing_blocked;
     net := always (Ok server_error) |}.

Definition world_timeout : world :=
  {| fs := one_file image_path jpeg_bytes; blocked := nothing_blocked;
     net := always (Raise read_timeout) |}.

Definition world_no_choices : world :=
  {| fs := one_file image_path jpeg_bytes; blocked := nothing_blocked;
     net := always (Ok no_choices) |}.

Definition world_no_files : world :=
  {| fs := no_files; blocked := nothing_blocked;
     net := always (Ok (completion "<table A>")) |}.


Definition world_ensemble : world :=
  {| fs := one_file image_path jpeg_bytes; blocked := nothing_blocked;
     net := ensemble_net |}.

(** [str] of a float, a list or a dict is not needed on these worlds. *)
Definition repr_object : pyval -> string := fun _ => "<object>".

(** The three candidates of the scenario of the specification. *)
Definition scenario_outputs : list pyval :=
  [ PyStr "<table A>";
    PyStr "Request failed with status code 500: error";
    PyStr "<table B>" ].

(** The outputs the loop collects on [world_ensemble]. *)
Definition ensemble_outputs : list pyval :=
  [ PyStr "<table A>";
    PyStr "Request failed with status code 500: error";
    PyStr "Request failed due to an exception: Read timed out. (read timeout=60)" ].

(** ** Vocabulary of the further properties *)

(** An exception the [except] clause of the two functions does not match. *)
Definition uncaught (e : exn) : Prop :=
  match e with
  | RequestException _ => False
  | _ => True
  end.


(** The lines printed along a trace, oldest first. *)
Fixpoint prints (tr : trace) : list string :=
  match tr with
  | [] => []
  | Printed line :: rest => line :: prints rest
  | _ :: rest => prints rest
  end.

(** Every request goes to the same endpoint, with the same headers and
    the same bounded wait. *)
Definition uniform_request (req : request) : Prop :=
  url req = chat_completions_url
  /\ headers req = request_headers
  /\ timeout req = 60.

(** A 200 answer whose body is not JSON, where [json()] raises the
    library's own decoding error. *)
Definition not_json : response :=
  {| status_code := 200;
     text := "<html>Bad Gateway</html>";
     json := Raise (RequestException "Expecting value: line 1 column 1 (char 0)") |}.

(** A 200 answer whose ['choices'] is a string. *)
Definition choices_text : response :=
  {| status_code := 200;
     text := "{" ++ quoted "choices" ++ ": " ++ quoted "none" ++ "}";
     json := Ok (PyDict [ ("choices", PyStr "none") ]) |}.

Definition broken_pipe : exn := OtherError "Broken pipe".

Definition world_not_json : world :=
  {| fs := one_file image_path jpeg_bytes; blocked := nothing_blocked;
     net := always (Ok not_json) |}.

Definition world_choices_text : world :=
  {| fs := one_file image_path jpeg_bytes; blocked := nothing_blocked;
     net := always (Ok choices_text) |}.

Definition world_broken_pipe : world :=
  {| fs := one_file image_path jpeg_bytes; blocked := nothing_blocked;
     net := always (Raise broken_pipe) |}.

(** ** Reading base64 back *)

(** The position of [c] in [s], counted from [i]. *)
Fixpoint index_from (i : N) (c : ascii) (s : string) : option N :=
  match s with
  | EmptyString => None
  | String d rest => if Ascii.eqb c d then Some i else index_from (i + 1) c rest
  end.

(** The 6-bit value of a base64 character. *)
Definition b64_index (c : ascii) : option N := index_from 0 c b64_alphabet.

Definition byte_of_N (n : N) : byte :=
  match Byte.of_N n with
  | Some b => b
  | None => x00
  end.

(** The three bytes held by the four 6-bit values cut from the 24-bit
    group [n]. *)
Definition group_byte1 (n : N) : N :=
  N.lor (N.shiftl (N.land (N.shiftr n 18) 63) 2)
        (N.shiftr (N.land (N.shiftr n 12) 63) 4).

Definition group_byte2 (n : N) : N :=
  N.lor (N.shiftl (N.land (N.land (N.shiftr n 12) 63) 15) 4)
        (N.shiftr (N.land (N.shiftr n 6) 63) 2).

Definition group_byte3 (n : N) : N :=
  N.lor (N.shiftl (N.land (N.land (N.shiftr n 6) 63) 3) 6)
        (N.land n 63).

(** The inverse of [b64encode]: four characters give three bytes; a last
    group padded with one or two [=] gives two bytes or one. *)
Fixpoint b64decode (s : string) : option (list byte) :=
  match s with
  | EmptyString => Some []
  | String c1 (String c2 (String c3 (String c4 rest))) =>
      match b64_index c1, b64_index c2 with
      | Some i1, Some i2 =>
          let b1 := byte_of_N (N.lor (N.shiftl i1 2) (N.shiftr i2 4)) in
          if Ascii.eqb c3 "=" then
            if Ascii.eqb c4 "=" then
              match rest with
              | EmptyString => Some [b1]
              | _ => None
              end
            else None
          else
            match b64_index c3 with
            | None => None
            | Some i3 =>
                let b2 := byte_of_N (N.lor (N.shiftl (N.land i2 15) 4)
                                           (N.shiftr i3 2)) in
                if Ascii.eqb c4 "=" then
                  match rest with
                  | EmptyString => Some [b1; b2]
                  | _ => None
                  end
                else
                  match b64_index c4 with
                  | None => None
                  | Some i4 =>
                      let b3 := byte_of_N (N.lor (N.shiftl (N.land i3 3) 6) i4) in
                      match b64decode rest with
                      | Some bs => Some (b1 :: b2 :: b3 :: bs)
                      | None => None
                      end
                  end
            end
      | _, _ => None
      end
  | _ => None
  end.

(** A character of the base64 alphabet, or the padding character. *)
Definition b64_symbol (c : ascii) : Prop :=
  In c (list_ascii_of_string b64_alphabet) \/ c = "="%char.

(** Every character of [s] satisfies [P]. *)
Fixpoint all_chars (P : ascii -> Prop) (s : string) : Prop :=
  match s with
  | EmptyString => True
  | String c rest => P c /\ all_chars P rest
  end.

(** * Properties *)

(** ** The model on small inputs *)

Example str_int_examples :
  str_int 200 = "200" /\ str_int 0 = "0" /\ str_int (-7) = "-7" /\ str_int 1000 = "1000".
Proof. repeat split. Qed.

Example b64encode_rfc4648 :
  b64encode [] = EmptyString /\
  b64encode (list_byte_of_string "f") = "Zg==" /\
  b64encode (list_byte_of_string "fo") = "Zm8=" /\
  b64encode (list_byte_of_string "foo") = "Zm9v" /\
  b64encode (list_byte_of_string "foob") = "Zm9vYg==" /\
  b64encode (list_byte_of_string "fooba") = "Zm9vYmE=" /\
  b64encode (list_byte_of_string "foobar") = "Zm9vYmFy".
Proof. repeat split. Qed.

Example b64encode_high_bytes :
  b64encode [xff; xd8; xff; xe0] = "/9j/4A==".
Proof. reflexivity. Qed.

Example getitem_examples :
  getitem_int (PyList []) 0 = Raise IndexError /\
  getitem_int (PyList [PyInt 1; PyInt 2]) (-1) = Ok (PyInt 2) /\
  getitem_int (PyStr "ab") 0 = Ok (PyStr "a") /\
  getitem_int (PyStr EmptyString) 0 = Raise IndexError /\
  getitem_str (PyStr "ab") "message" = Raise TypeError /\
  getitem_str (PyDict [("a", PyNone)]) "b" = Raise (KeyError (PyStr "b")).
Proof. repeat split. Qed.

(** ** Base64 output length *)

(** Lists can be taken three elements at a time. *)
Lemma list_ind3 : forall (A : Type) (P : list A -> Prop),
  P [] -> (forall a, P [a]) -> (forall a b, P [a; b]) ->
  (forall a b c l, P l -> P (a :: b :: c :: l)) ->
  forall l, P l.
Proof.
  intros A P H0 H1 H2 H3 l.
  assert (H : P l /\ (forall a, P (a :: l)) /\ (forall a b, P (a :: b :: l))).
  { induction l as [|x l (IH0 & IH1 & IH2)].
    - repeat split; auto.
    - repeat split; auto. }
  exact (proj1 H).
Qed.

(** Every group of three bytes, complete or not, gives four characters. *)
Lemma b64encode_length : forall bs,
  String.length (b64encode bs) = (4 * ((List.length bs + 2) / 3))%nat.
Proof.
  induction bs as [|a|a b|a b c rest IH] using list_ind3; try reflexivity.
  change (String.length (b64encode (a :: b :: c :: rest)))
    with (S (S (S (S (String.length (b64encode rest)))))).
  rewrite IH.
  change (List.length (a :: b :: c :: rest)) with (3 + List.length rest)%nat.
  replace (3 + List.length rest + 2)%nat
    with (List.length rest + 2 + 1 * 3)%nat by lia.
  rewrite Nat.div_add by discriminate. lia.
Qed.

(** ** Running the two functions *)

Lemma getitem_str_raises : forall v key e,
  getitem_str v key = Raise e -> lookup_error e.
Proof.
  intros v key e H. unfold getitem_str in H.
  destruct v; try (inversion H; exact I).
  destruct (dict_get entries key); inversion H; exact I.
Qed.

Lemma getitem_int_raises : forall v i e,
  getitem_int v i = Raise e -> lookup_error e.
Proof.
  intros v i e H. unfold getitem_int in H.
  destruct v; try (inversion H; exact I).
  - destruct (seq_index (str_chars s) i); inversion H; exact I.
  - destruct (seq_index items i); inversion H; exact I.
Qed.

Lemma first_choice_content_raises : forall payload e,
  first_choice_content payload = Raise e -> lookup_error e.
Proof.
  intros payload e H. unfold first_choice_content in H.
  destruct (getitem_str payload "choices") as [choices|e1] eqn:E1.
  2:{ inversion H; subst. eapply getitem_str_raises; eassumption. }
  destruct (getitem_int choices 0) as [choice|e2] eqn:E2.
  2:{ inversion H; subst. eapply getitem_int_raises; eassumption. }
  destruct (getitem_str choice "message") as [message|e3] eqn:E3.
  2:{ inversion H; subst. eapply getitem_str_raises; eassumption. }
  eapply getitem_str_raises; eassumption.
Qed.

(** The [except] clause of the source leaves a lookup error alone. *)
Lemma lookup_error_not_caught : forall (A : Type) (h : string -> M A) e,
  lookup_error e -> except_RequestException h e = None.
Proof. intros A h e H. destruct e; simpl in H; try contradiction; reflexivity. Qed.

Section Runs.

Variable w : world.
Variable repr_other : pyval -> string.

(** The [try] block of both functions, run on a request. *)
Lemma try_block_run : forall req tr,
  try_except
    (bind (requests_post w req)
       (fun response =>
          if status_code response =? 200 then
            bind (lift (json response))
              (fun result => lift (first_choice_content result))
          else ret (PyStr (status_failure_text response))))
    (except_RequestException
       (fun e => ret (PyStr (exception_failure_text e)))) tr
  = ((tr ++ [Posted req])%list, answer (net w tr req)).
Proof.
  intros req tr.
  unfold try_except, bind, requests_post, lift, ret, answer.
  destruct (net w tr req) as [r|e].
  - destruct (status_code r =? 200); [|reflexivity].
    destruct (json r) as [payload|e].
    + destruct (first_choice_content payload) as [v|e] eqn:E; [reflexivity|].
      rewrite lookup_error_not_caught
        by (eapply first_choice_content_raises; eassumption).
      reflexivity.
    + destruct e; reflexivity.
  - destruct e; reflexivity.
Qed.

Lemma describe_run : forall image_path model_name instruction tr,
  describe_image_with_model w image_path model_name instruction tr =
  match fs w image_path with
  | None => ((tr ++ [Opened image_path])%list, Raise (open_failure w image_path))
  | Some image_bytes =>
      let req := describe_request model_name instruction image_bytes in
      ((tr ++ [Opened image_path; Posted req])%list,
       answer (net w (tr ++ [Opened image_path])%list req))
  end.
Proof.
  intros image_path model_name instruction tr.
  unfold describe_image_with_model.
  unfold bind at 1. unfold open_read.
  destruct (fs w image_path) as [image_bytes|]; [|reflexivity].
  cbv zeta.
  fold (describe_request model_name instruction image_bytes).
  rewrite try_block_run. rewrite <- app_assoc. reflexivity.
Qed.

Lemma select_run : forall outputs tr,
  select_best_output_with_command_r w repr_other outputs tr =
  let req := judge_request (command_r_instruction repr_other outputs) in
  ((tr ++ [Posted req])%list, answer (net w tr req)).
Proof.
  intros outputs tr.
  unfold select_best_output_with_command_r. cbv zeta.
  fold (judge_request (command_r_instruction repr_other outputs)).
  apply try_block_run.
Qed.

End Runs.

(** ** Strings: appending and joining *)

Lemma append_assoc : forall a b c : string, (a ++ b) ++ c = a ++ (b ++ c).
Proof.
  induction a as [|ch a IH]; intros b c; simpl; [reflexivity|].
  now rewrite IH.
Qed.

Lemma append_empty_r : forall a : string, a ++ EmptyString = a.
Proof.
  induction a as [|ch a IH]; simpl; [reflexivity|]. now rewrite IH.
Qed.

Lemma occurs_in_intro : forall x pre post, occurs_in x (pre ++ x ++ post).
Proof. intros x pre post. exists pre, post. reflexivity. Qed.

Lemma occurs_in_append_l : forall x s t, occurs_in x s -> occurs_in x (t ++ s).
Proof.
  intros x s t (pre & post & ->). exists (t ++ pre), post.
  now rewrite append_assoc.
Qed.

Lemma occurs_in_append_r : forall x s t, occurs_in x s -> occurs_in x (s ++ t).
Proof.
  intros x s t (pre & post & ->). exists pre, (post ++ t).
  now rewrite !append_assoc.
Qed.

Lemma join_cons : forall sep p rest, join sep (p :: rest) = p ++ trail sep rest.
Proof.
  intros sep p rest. revert p.
  induction rest as [|q rest IH]; intros p.
  - simpl. now rewrite append_empty_r.
  - change (join sep (p :: q :: rest)) with (p ++ sep ++ join sep (q :: rest)).
    rewrite IH. reflexivity.
Qed.

Lemma trail_split : forall sep before p after,
  trail sep (before ++ p :: after)
  = (trail sep before ++ sep) ++ p ++ trail sep after.
Proof.
  intros sep before p after.
  induction before as [|q before IH]; simpl.
  - reflexivity.
  - rewrite IH. rewrite !append_assoc. reflexivity.
Qed.

Lemma trail_lead : forall sep parts,
  trail sep parts ++ sep = sep ++ lead sep parts.
Proof.
  intros sep parts. induction parts as [|p parts IH]; simpl.
  - now rewrite append_empty_r.
  - rewrite !append_assoc. rewrite IH. reflexivity.
Qed.

Lemma join_split : forall sep before p after,
  join sep (before ++ p :: after) = lead sep before ++ p ++ trail sep after.
Proof.
  intros sep before p after.
  destruct before as [|q before].
  - apply join_cons.
  - simpl app. rewrite join_cons, trail_split, trail_lead.
    simpl lead. rewrite !append_assoc. reflexivity.
Qed.

Lemma enumerate_from_app : forall (A : Type) (l1 l2 : list A) i,
  enumerate_from i (l1 ++ l2)
  = (enumerate_from i l1 ++ enumerate_from (i + Z.of_nat (List.length l1)) l2)%list.
Proof.
  intros A l1 l2. induction l1 as [|x l1 IH]; intros i.
  - simpl. now rewrite Z.add_0_r.
  - simpl app. simpl enumerate_from. rewrite IH. simpl app.
    do 3 f_equal. simpl List.length. lia.
Qed.

Lemma enumerate_from_length : forall (A : Type) (l : list A) i,
  List.length (enumerate_from i l) = List.length l.
Proof.
  intros A l. induction l as [|x l IH]; intros i; simpl; [reflexivity|].
  now rewrite IH.
Qed.

(** ** The judge instruction *)

Section Instruction.

Variable repr_other : pyval -> string.

Lemma formatted_outputs_blocks : forall outputs,
  formatted_outputs repr_other outputs = join (nl ++ nl) (blocks_from repr_other 0 outputs).
Proof. reflexivity. Qed.

Lemma blocks_from_length : forall l i,
  List.length (blocks_from repr_other i l) = List.length l.
Proof.
  intros l i. unfold blocks_from. rewrite length_map.
  apply enumerate_from_length.
Qed.

Lemma blocks_from_split : forall before c after i,
  blocks_from repr_other i (before ++ c :: after)
  = (blocks_from repr_other i before
     ++ option_block (i + Z.of_nat (List.length before) + 1) (py_str repr_other c)
     :: blocks_from repr_other (i + Z.of_nat (List.length before) + 1) after)%list.
Proof.
  intros before c after i. unfold blocks_from.
  rewrite enumerate_from_app, map_app. reflexivity.
Qed.

(** A candidate splits the formatted candidates around its block. *)
Lemma formatted_outputs_split : forall before c after,
  formatted_outputs repr_other (before ++ c :: after)
  = lead (nl ++ nl) (blocks_from repr_other 0 before)
    ++ option_block (Z.of_nat (List.length before) + 1) (py_str repr_other c)
    ++ trail (nl ++ nl) (blocks_from repr_other (Z.of_nat (List.length before) + 1) after).
Proof.
  intros before c after.
  rewrite formatted_outputs_blocks, blocks_from_split, join_split.
  reflexivity.
Qed.

(** The block of the candidate at index [n] occurs in the instruction. *)
Lemma option_block_in_instruction : forall outputs n c,
  nth_error outputs n = Some c ->
  occurs_in (option_block (Z.of_nat n + 1) (py_str repr_other c))
    (command_r_instruction repr_other outputs).
Proof.
  intros outputs n c H.
  destruct (nth_error_split _ _ H) as (before & after & -> & <-).
  unfold command_r_instruction. rewrite formatted_outputs_split.
  apply occurs_in_append_l. rewrite !append_assoc.
  apply occurs_in_intro.
Qed.

End Instruction.

(** ** Status failures keep the status and the body *)

Lemma uint_digits_colon_free : forall d, colon_free (NilEmpty.string_of_uint d).
Proof.
  induction d; simpl; try exact I; (split; [discriminate | assumption]).
Qed.

Lemma str_int_colon_free : forall n, colon_free (str_int n).
Proof.
  intros n. unfold str_int, NilEmpty.string_of_int.
  destruct (Z.to_int n) as [d|d].
  - apply uint_digits_colon_free.
  - simpl. split; [discriminate | apply uint_digits_colon_free].
Qed.

Lemma str_int_inj : forall a b, str_int a = str_int b -> a = b.
Proof.
  intros a b H. unfold str_int in H.
  apply DecimalZ.to_int_inj.
  assert (E : Some (Z.to_int a) = Some (Z.to_int b)).
  { rewrite <- (NilEmpty.isi (Z.to_int a)), <- (NilEmpty.isi (Z.to_int b)).
    now rewrite H. }
  now inversion E.
Qed.

(** Two texts that agree up to their first colon agree before and after it. *)
Lemma split_at_colon : forall d1 d2 x y,
  colon_free d1 -> colon_free d2 ->
  d1 ++ String ":" x = d2 ++ String ":" y -> d1 = d2 /\ x = y.
Proof.
  induction d1 as [|c d1 IH]; intros d2 x y H1 H2 E.
  - destruct d2 as [|c2 d2]; simpl in E.
    + inversion E. split; reflexivity.
    + inversion E; subst. destruct H2 as [H2 _]. now elim H2.
  - destruct d2 as [|c2 d2]; simpl in E.
    + inversion E; subst. destruct H1 as [H1 _]. now elim H1.
    + inversion E; subst. destruct H1 as [_ H1], H2 as [_ H2].
      destruct (IH d2 x y H1 H2 H3) as [-> ->]. split; reflexivity.
Qed.

Lemma append_inj_l : forall p a b : string, p ++ a = p ++ b -> a = b.
Proof.
  induction p as [|c p IH]; intros a b H; simpl in H; [assumption|].
  inversion H. now apply IH.
Qed.

Lemma status_failure_text_inj : forall r r',
  status_failure_text r = status_failure_text r' ->
  status_code r = status_code r' /\ text r = text r'.
Proof.
  intros r r' H. unfold status_failure_text in H.
  apply append_inj_l in H.
  change (": " ++ text r) with (String ":" (" " ++ text r)) in H.
  change (": " ++ text r') with (String ":" (" " ++ text r')) in H.
  apply split_at_colon in H; try apply str_int_colon_free.
  destruct H as [Hc Ht]. split.
  - now apply str_int_inj.
  - now apply (append_inj_l " ").
Qed.

Lemma status_failure_text_has_code : forall r,
  occurs_in (str_int (status_code r)) (status_failure_text r).
Proof. intros r. unfold status_failure_text. apply occurs_in_intro. Qed.

Lemma status_failure_text_has_body : forall r,
  occurs_in (text r) (status_failure_text r).
Proof.
  intros r. unfold status_failure_text.
  exists ("Request failed with status code " ++ str_int (status_code r) ++ ": "),
    EmptyString.
  rewrite append_empty_r, !append_assoc. reflexivity.
Qed.

(** ** What [answer] gives *)

Lemma first_choice_content_ok : forall payload content,
  has_first_choice_content payload content ->
  first_choice_content payload = Ok content.
Proof.
  intros payload content (entries & choice & others & message & -> & H1 & H2 & H3).
  unfold first_choice_content. simpl. rewrite H1. simpl.
  rewrite H2. simpl. rewrite H3. reflexivity.
Qed.

Lemma first_choice_content_lacking : forall payload e,
  lacks_first_choice_content payload e ->
  first_choice_content payload = Raise e.
Proof.
  intros payload e H. unfold first_choice_content.
  destruct H as [entries H1|entries H1|entries choice others H1 H2
                |entries choice others message H1 H2 H3];
    simpl; rewrite H1; simpl; try reflexivity.
  - rewrite H2. reflexivity.
  - rewrite H2. simpl. rewrite H3. reflexivity.
Qed.

Lemma answer_success : forall r payload,
  status_code r = 200 -> json r = Ok payload ->
  answer (Ok r) = first_choice_content payload.
Proof. intros r payload Hs Hj. unfold answer. rewrite Hs, Hj. reflexivity. Qed.

Lemma answer_status_failure : forall r,
  status_code r <> 200 -> answer (Ok r) = Ok (PyStr (status_failure_text r)).
Proof.
  intros r H. unfold answer.
  destruct (Z.eqb_spec (status_code r) 200); [contradiction|reflexivity].
Qed.

Lemma answer_transport_failure : forall o,
  transport_failure o -> exists s, answer o = Ok (PyStr s).
Proof.
  intros [r|e] H; simpl in H.
  - rewrite answer_status_failure by assumption. eauto.
  - destruct e; try contradiction. simpl. eauto.
Qed.

(** ** Reading a trace *)

Lemma posts_app : forall tr1 tr2 : trace, posts (tr1 ++ tr2)%list = (posts tr1 ++ posts tr2)%list.
Proof.
  intros tr1 tr2. induction tr1 as [|ev tr1 IH]; simpl; [reflexivity|].
  destruct ev; simpl; now rewrite IH.
Qed.

Lemma opens_app : forall tr1 tr2 : trace, opens (tr1 ++ tr2)%list = (opens tr1 ++ opens tr2)%list.
Proof.
  intros tr1 tr2. induction tr1 as [|ev tr1 IH]; simpl; [reflexivity|].
  destruct ev; simpl; now rewrite IH.
Qed.

(** ** The properties of the specification *)

Section Properties.

Variable w : world.
Variable repr_other : pyval -> string.

Abbreviation describe := (describe_image_with_model w).
Abbreviation select := (select_best_output_with_command_r w repr_other).

(** C1. Whenever the provider answers with the success status (200) and a
    payload that has a first completion choice with a message content, the
    Extractor returns exactly that content, unchanged, and so does the
    Selector for the judge's answer. *)
Theorem C1_success_returns_first_choice_content :
  forall (r : response) (payload content : pyval)
         (image_path model_name instruction : string) (image_bytes : list byte)
         (outputs : list pyval) (tr tr' : trace),
    status_code r = 200 ->
    json r = Ok payload ->
    has_first_choice_content payload content ->
    (fs w image_path = Some image_bytes ->
     net w (tr ++ [Opened image_path])%list
       (describe_request model_name instruction image_bytes) = Ok r ->
     snd (describe image_path model_name instruction tr) = Ok content)
    /\
    (net w tr' (judge_request (command_r_instruction repr_other outputs)) = Ok r ->
     snd (select outputs tr') = Ok content).
Proof.
  intros r payload content image_path model_name instruction image_bytes
    outputs tr tr' Hs Hj Hc.
  pose proof (first_choice_content_ok _ _ Hc) as Hf.
  split.
  - intros Hfs Hnet. rewrite describe_run, Hfs. cbv zeta. simpl snd.
    rewrite Hnet, (answer_success _ _ Hs Hj). exact Hf.
  - intros Hnet. rewrite select_run. cbv zeta. simpl snd.
    rewrite Hnet, (answer_success _ _ Hs Hj). exact Hf.
Qed.

(** C5. Whenever the provider answers with a status other than 200, the
    Extractor (and the Selector) returns the string
    ["Request failed with status code <status>: <body>"]: the decimal
    status and the body occur in it unchanged, and no other status or
    body yields the same string. *)
Theorem C5_status_failure_keeps_status_and_body :
  forall (r : response)
         (image_path model_name instruction : string) (image_bytes : list byte)
         (outputs : list pyval) (tr tr' : trace),
    status_code r <> 200 ->
    let s := "Request failed with status code " ++ str_int (status_code r)
             ++ ": " ++ text r in
    (occurs_in (str_int (status_code r)) s /\
     occurs_in (text r) s /\
     forall r', s = status_failure_text r' ->
                status_code r' = status_code r /\ text r' = text r)
    /\
    (fs w image_path = Some image_bytes ->
     net w (tr ++ [Opened image_path])%list
       (describe_request model_name instruction image_bytes) = Ok r ->
     snd (describe image_path model_name instruction tr) = Ok (PyStr s))
    /\
    (net w tr' (judge_request (command_r_instruction repr_other outputs)) = Ok r ->
     snd (select outputs tr') = Ok (PyStr s)).
Proof.
  intros r image_path model_name instruction image_bytes outputs tr tr' Hs s.
  change s with (status_failure_text r).
  split; [|split].
  - split; [apply status_failure_text_has_code|].
    split; [apply status_failure_text_has_body|].
    intros r' E. symmetry in E.
    apply status_failure_text_inj in E. destruct E as [-> ->].
    split; reflexivity.
  - intros Hfs Hnet. rewrite describe_run, Hfs. cbv zeta. simpl snd.
    rewrite Hnet. now apply answer_status_failure.
  - intros Hnet. rewrite select_run. cbv zeta. simpl snd.
    rewrite Hnet. now apply answer_status_failure.
Qed.

(** C4, as amended. Whenever the provider call fails at the transport
    level (a status other than 200, or a [RequestException] raised by the
    post), the Extractor, given a readable image, and the Selector return
    a string and raise nothing. *)
Theorem C4_transport_failures_are_returned_as_text :
  forall (o : outcome response)
         (image_path model_name instruction : string) (image_bytes : list byte)
         (outputs : list pyval) (tr tr' : trace),
    transport_failure o ->
    (fs w image_path = Some image_bytes ->
     net w (tr ++ [Opened image_path])%list
       (describe_request model_name instruction image_bytes) = o ->
     exists s, snd (describe image_path model_name instruction tr) = Ok (PyStr s))
    /\
    (net w tr' (judge_request (command_r_instruction repr_other outputs)) = o ->
     exists s, snd (select outputs tr') = Ok (PyStr s)).
Proof.
  intros o image_path model_name instruction image_bytes outputs tr tr' Ho.
  destruct (answer_transport_failure _ Ho) as [s Hs].
  split.
  - intros Hfs Hnet. exists s. rewrite describe_run, Hfs. cbv zeta. simpl snd.
    now rewrite Hnet.
  - intros Hnet. exists s. rewrite select_run. cbv zeta. simpl snd.
    now rewrite Hnet.
Qed.

(** C10. Whenever the provider answers with status 200 and a payload that
    lacks the ['choices'] key, has an empty ['choices'] list, or whose
    first choice lacks ['message'] or ['content'], the Extractor and the
    Selector raise the index or key error of the unguarded indexing; it is
    not caught and no string is returned. *)
Theorem C10_success_without_first_choice_raises :
  forall (r : response) (payload : pyval) (e : exn)
         (image_path model_name instruction : string) (image_bytes : list byte)
         (outputs : list pyval) (tr tr' : trace),
    status_code r = 200 ->
    json r = Ok payload ->
    lacks_first_choice_content payload e ->
    index_or_key_error e
    /\
    (fs w image_path = Some image_bytes ->
     net w (tr ++ [Opened image_path])%list
       (describe_request model_name instruction image_bytes) = Ok r ->
     snd (describe image_path model_name instruction tr) = Raise e)
    /\
    (net w tr' (judge_request (command_r_instruction repr_other outputs)) = Ok r ->
     snd (select outputs tr') = Raise e).
Proof.
  intros r payload e image_path model_name instruction image_bytes
    outputs tr tr' Hs Hj Hl.
  pose proof (first_choice_content_lacking _ _ Hl) as Hf.
  split; [|split].
  - unfold index_or_key_error. destruct Hl; eauto.
  - intros Hfs Hnet. rewrite describe_run, Hfs. cbv zeta. simpl snd.
    rewrite Hnet, (answer_success _ _ Hs Hj). exact Hf.
  - intros Hnet. rewrite select_run. cbv zeta. simpl snd.
    rewrite Hnet, (answer_success _ _ Hs Hj). exact Hf.
Qed.


(** C8. For every image file, whatever its bytes, the Extractor posts one
    request whose image item is the data URL
    ["data:image/jpeg;base64,"] followed by the base64 encoding of the
    file's bytes. *)
Theorem C8_image_sent_as_jpeg_data_url :
  forall (image_path model_name instruction : string) (image_bytes : list byte)
         (tr : trace),
    fs w image_path = Some image_bytes ->
    exists req,
      fst (describe image_path model_name instruction tr)
        = (tr ++ [Opened image_path; Posted req])%list
      /\ payload_image_url (data req)
        = Ok (PyStr ("data:image/jpeg;base64," ++ b64encode image_bytes)).
Proof.
  intros image_path model_name instruction image_bytes tr Hfs.
  exists (describe_request model_name instruction image_bytes).
  rewrite describe_run, Hfs. split; reflexivity.
Qed.

(** C2. For every sequence of candidates given to the Selector, the
    instruction carried by the request it posts holds the candidate at
    1-based position N as the block ["Option N:"], a line feed, then the
    candidate's text unchanged; and the block of every later candidate
    occurs after it, so the blocks follow the order of the input. *)
Theorem C2_candidates_labelled_in_input_order :
  forall (outputs : list pyval) (n : nat) (c : pyval) (tr : trace),
    nth_error outputs n = Some c ->
    exists req pre post,
      fst (select outputs tr) = (tr ++ [Posted req])%list
      /\ payload_instruction (data req)
         = Ok (PyStr (pre ++ ("Option " ++ str_int (Z.of_nat n + 1) ++ ":" ++ nl
                              ++ py_str repr_other c) ++ post))
      /\ forall (m : nat) (c' : pyval),
           (n < m)%nat ->
           nth_error outputs m = Some c' ->
           exists mid post',
             post = mid ++ ("Option " ++ str_int (Z.of_nat m + 1) ++ ":" ++ nl
                            ++ py_str repr_other c') ++ post'.
Proof.
  intros outputs n c tr H.
  destruct (nth_error_split _ _ H) as (before & after & Hsplit & Hlen).
  exists (judge_request (command_r_instruction repr_other outputs)).
  exists (unlines instruction_head ++ lead (nl ++ nl) (blocks_from repr_other 0 before)).
  exists (trail (nl ++ nl)
            (blocks_from repr_other (Z.of_nat (List.length before) + 1) after)
          ++ nl ++ nl ++ "    ").
  split; [rewrite select_run; reflexivity|].
  split.
  - change (payload_instruction
              (data (judge_request (command_r_instruction repr_other outputs))))
      with (Ok (PyStr (command_r_instruction repr_other outputs))).
    do 2 f_equal. subst outputs n.
    unfold command_r_instruction. rewrite formatted_outputs_split.
    unfold option_block. rewrite !append_assoc. reflexivity.
  - intros m c' Hlt Hm. subst outputs n.
    rewrite nth_error_app2 in Hm by lia.
    destruct (m - List.length before)%nat as [|k] eqn:Ek; [lia|].
    simpl in Hm.
    destruct (nth_error_split _ _ Hm) as (between & rest & -> & Hk).
    rewrite blocks_from_split, trail_split.
    replace (Z.of_nat (List.length before) + 1 + Z.of_nat (List.length between) + 1)
      with (Z.of_nat m + 1) by lia.
    exists (trail (nl ++ nl)
              (blocks_from repr_other (Z.of_nat (List.length before) + 1) between)
            ++ nl ++ nl).
    exists (trail (nl ++ nl)
              (blocks_from repr_other (Z.of_nat m + 1) rest)
            ++ nl ++ nl ++ "    ").
    unfold option_block. rewrite !append_assoc. reflexivity.
Qed.

(** C6. The Selector does not filter its candidates: when a candidate is
    a failure text of the Extractor (for a status other than 200 or for a
    [RequestException]), the instruction carried by the request the
    Selector posts holds it as the block of its own position, and holds
    every other candidate in the same way, as the block of its position.
    In the scenario of the specification the failure text of a 500 answer
    at position 2 is sent as ["Option 2"], between the two tables. *)
Theorem C6_failure_text_is_sent_as_a_candidate :
  forall (outputs : list pyval) (n : nat) (s : string) (tr : trace),
    nth_error outputs n = Some (PyStr s) ->
    extractor_failure_text s ->
    (exists req instruction,
       fst (select outputs tr) = (tr ++ [Posted req])%list
       /\ payload_instruction (data req) = Ok (PyStr instruction)
       /\ occurs_in ("Option " ++ str_int (Z.of_nat n + 1) ++ ":" ++ nl ++ s)
            instruction
       /\ forall (m : nat) (c : pyval),
            nth_error outputs m = Some c ->
            occurs_in ("Option " ++ str_int (Z.of_nat m + 1) ++ ":" ++ nl
                       ++ py_str repr_other c) instruction)
    /\
    (exists req,
       fst (select [PyStr "<table A>";
                    PyStr "Request failed with status code 500: error";
                    PyStr "<table B>"] tr)
       = (tr ++ [Posted req])%list
       /\ payload_instruction (data req)
          = Ok (PyStr (unlines instruction_head
                       ++ "Option 1:" ++ nl ++ "<table A>" ++ nl ++ nl
                       ++ "Option 2:" ++ nl
                       ++ "Request failed with status code 500: error" ++ nl ++ nl
                       ++ "Option 3:" ++ nl ++ "<table B>"
                       ++ nl ++ nl ++ "    "))).
Proof.
  intros outputs n s tr H _. split.
  - exists (judge_request (command_r_instruction repr_other outputs)).
    exists (command_r_instruction repr_other outputs).
    split; [rewrite select_run; reflexivity|].
    split; [reflexivity|].
    split.
    + apply (option_block_in_instruction repr_other _ _ _ H).
    + intros m c Hm. apply (option_block_in_instruction repr_other _ _ _ Hm).
  - eexists. split; [rewrite select_run; reflexivity|]. reflexivity.
Qed.

(** C3, as amended. For the empty sequence of candidates the Selector
    still calls the judge, exactly once: the instruction it sends has
    nothing between the line that announces the tables and the closing
    lines, and what it returns is read from the judge's answer as for any
    other call. *)
Theorem C3_empty_candidates_still_call_the_judge :
  forall (tr : trace),
    let req := judge_request (unlines instruction_head ++ nl ++ nl ++ "    ") in
    formatted_outputs repr_other [] = EmptyString
    /\ select [] tr = ((tr ++ [Posted req])%list, answer (net w tr req)).
Proof.
  intros tr req. split; [reflexivity|].
  rewrite select_run. reflexivity.
Qed.

End Properties.

(** ** The driver loop *)

Section Driver.

Variable w : world.
Variable repr_other : pyval -> string.
Variable image_path instruction : string.

Lemma collect_outputs_extracted : forall models outputs tr tr' outs,
  collect_outputs w repr_other image_path instruction models outputs tr
    = (tr', Ok outs) ->
  exists collected,
    outs = (outputs ++ collected)%list
    /\ extracted_in_order w image_path instruction tr models collected tr'.
Proof.
  intros ms. induction ms as [|model rest IH]; intros outputs tr tr' outs H.
  - simpl in H. unfold ret in H. inversion H; subst.
    exists []. split; [now rewrite app_nil_r|constructor].
  - simpl in H. unfold bind at 1 in H. unfold print at 1 in H.
    unfold bind at 1 in H.
    destruct (describe_image_with_model w image_path (name model) instruction
                (tr ++ [Printed _])%list) as [tr_done [output|e]] eqn:E;
      [|discriminate].
    unfold bind at 1 in H. unfold print at 1 in H.
    apply IH in H. destruct H as (collected & -> & Hrest).
    exists (output :: collected). split.
    + rewrite <- app_assoc. reflexivity.
    + econstructor; eassumption.
Qed.








End Driver.

(** ** The properties at concrete inputs *)

Lemma C1_witness :
  snd (describe_image_with_model world_ok image_path "mistralai/pixtral-12b"
         instruction []) = Ok (PyStr "<table A>")
  /\ snd (select_best_output_with_command_r world_ok repr_object
            scenario_outputs []) = Ok (PyStr "<table A>").
Proof.
  assert (H : has_first_choice_content (completion_payload "<table A>")
                (PyStr "<table A>")).
  { unfold has_first_choice_content, completion_payload.
    do 4 eexists. repeat split; reflexivity. }
  destruct (C1_success_returns_first_choice_content world_ok repr_object
              (completion "<table A>") (completion_payload "<table A>")
              (PyStr "<table A>") image_path "mistralai/pixtral-12b"
              instruction jpeg_bytes scenario_outputs [] []
              eq_refl eq_refl H) as [Hd Hs].
  split; [apply Hd | apply Hs]; reflexivity.
Defined.

Lemma C2_witness :
  nth_error scenario_outputs 1 = Some (PyStr "Request failed with status code 500: error")
  /\ exists req pre post,
       fst (select_best_output_with_command_r world_ok repr_object
              scenario_outputs [])
       = [Posted req]
       /\ payload_instruction (data req)
          = Ok (PyStr (pre ++ ("Option " ++ str_int 2 ++ ":" ++ nl
                               ++ "Request failed with status code 500: error")
                       ++ post))
       /\ forall (m : nat) (c' : pyval),
            (1 < m)%nat ->
            nth_error scenario_outputs m = Some c' ->
            exists mid post',
              post = mid ++ ("Option " ++ str_int (Z.of_nat m + 1) ++ ":" ++ nl
                             ++ py_str repr_object c') ++ post'.
Proof.
  split; [reflexivity|].
  exact (C2_candidates_labelled_in_input_order world_ok repr_object
           scenario_outputs 1
           (PyStr "Request failed with status code 500: error") [] eq_refl).
Defined.

Lemma C4_witness :
  transport_failure (Raise read_timeout)
  /\ (exists s, snd (describe_image_with_model world_timeout image_path
                       "mistralai/pixtral-12b" instruction []) = Ok (PyStr s))
  /\ (exists s, snd (select_best_output_with_command_r world_timeout repr_object
                       scenario_outputs []) = Ok (PyStr s)).
Proof.
  split; [exact I|].
  destruct (C4_transport_failures_are_returned_as_text world_timeout repr_object
              (Raise read_timeout) image_path "mistralai/pixtral-12b"
              instruction jpeg_bytes scenario_outputs [] [] I) as [Hd Hs].
  split; [apply Hd | apply Hs]; reflexivity.
Defined.

Lemma C5_witness :
  status_code server_error <> 200
  /\ snd (describe_image_with_model world_500 image_path "mistralai/pixtral-12b"
            instruction [])
     = Ok (PyStr "Request failed with status code 500: error")
  /\ snd (select_best_output_with_command_r world_500 repr_object
            scenario_outputs [])
     = Ok (PyStr "Request failed with status code 500: error").
Proof.
  assert (Hs : status_code server_error <> 200) by (simpl; lia).
  split; [exact Hs|].
  destruct (C5_status_failure_keeps_status_and_body world_500 repr_object
              server_error image_path "mistralai/pixtral-12b" instruction
              jpeg_bytes scenario_outputs [] [] Hs) as (_ & Hd & Hj).
  split; [apply Hd | apply Hj]; reflexivity.
Defined.

Lemma C6_witness :
  nth_error scenario_outputs 1
  = Some (PyStr "Request failed with status code 500: error")
  /\ extractor_failure_text "Request failed with status code 500: error"
  /\ exists req instruction,
       fst (select_best_output_with_command_r world_ok repr_object
              scenario_outputs [])
       = [Posted req]
       /\ payload_instruction (data req) = Ok (PyStr instruction)
       /\ occurs_in ("Option " ++ str_int 2 ++ ":" ++ nl
                     ++ "Request failed with status code 500: error")
            instruction
       /\ forall (m : nat) (c : pyval),
            nth_error scenario_outputs m = Some c ->
            occurs_in ("Option " ++ str_int (Z.of_nat m + 1) ++ ":" ++ nl
                       ++ py_str repr_object c) instruction.
Proof.
  assert (Hf : extractor_failure_text "Request failed with status code 500: error")
    by (left; exists server_error; reflexivity).
  split; [reflexivity|]. split; [exact Hf|].
  exact (proj1 (C6_failure_text_is_sent_as_a_candidate world_ok repr_object
                  scenario_outputs 1
                  "Request failed with status code 500: error" []
                  eq_refl Hf)).
Defined.


Lemma C8_witness :
  fs world_png "scan.png" = Some png_bytes
  /\ exists req,
       fst (describe_image_with_model world_png "scan.png"
              "mistralai/pixtral-12b" instruction [])
       = [Opened "scan.png"; Posted req]
       /\ payload_image_url (data req)
          = Ok (PyStr "data:image/jpeg;base64,iVBORw0KGgo=").
Proof.
  split; [reflexivity|].
  exact (C8_image_sent_as_jpeg_data_url world_png "scan.png"
           "mistralai/pixtral-12b" instruction png_bytes [] eq_refl).
Defined.

Lemma C10_witness :
  lacks_first_choice_content (PyDict [ ("choices", PyList []) ]) IndexError
  /\ snd (describe_image_with_model world_no_choices image_path
            "mistralai/pixtral-12b" instruction []) = Raise IndexError
  /\ snd (select_best_output_with_command_r world_no_choices repr_object
            scenario_outputs []) = Raise IndexError.
Proof.
  assert (H : lacks_first_choice_content (PyDict [ ("choices", PyList []) ])
                IndexError)
    by (apply empty_choices; reflexivity).
  split; [exact H|].
  destruct (C10_success_without_first_choice_raises world_no_choices repr_object
              no_choices (PyDict [ ("choices", PyList []) ]) IndexError
              image_path "mistralai/pixtral-12b" instruction jpeg_bytes
              scenario_outputs [] [] eq_refl eq_refl H) as (_ & Hd & Hs).
  split; [apply Hd | apply Hs]; reflexivity.
Defined.


(** ** Where the specification says more than the script does *)

(** C3, as stated, fails: given no candidate, the Selector posts the judge
    request all the same, with an instruction that lists no option. *)
Lemma C3_counterexample :
  formatted_outputs repr_object [] = EmptyString
  /\ posts (fst (select_best_output_with_command_r world_ok repr_object [] []))
     = [judge_request (unlines instruction_head ++ nl ++ nl ++ "    ")]
  /\ posts (fst (select_best_output_with_command_r world_ok repr_object [] []))
     <> [].
Proof.
  split; [reflexivity|]. split; [reflexivity|]. discriminate.
Qed.

(** C4, as stated, fails: a missing image makes the Extractor raise, and a
    200 answer without choices makes the Selector (and the Extractor)
    raise. *)
Lemma C4_counterexample :
  snd (describe_image_with_model world_no_files image_path
         "mistralai/pixtral-12b" instruction [])
  = Raise (FileNotFoundError image_path)
  /\ snd (select_best_output_with_command_r world_no_choices repr_object
            scenario_outputs [])
     = Raise IndexError
  /\ snd (describe_image_with_model world_no_choices image_path
            "mistralai/pixtral-12b" instruction [])
     = Raise IndexError.
Proof. repeat split. Qed.



(** * Further properties of the two functions *)

Lemma answer_uncaught : forall e, uncaught e -> answer (Raise e) = Raise e.
Proof. intros e H. destruct e; simpl in H; try contradiction; reflexivity. Qed.

Lemma status_text_is_not_exception_text : forall r msg,
  status_failure_text r <> exception_failure_text msg.
Proof.
  intros r msg H. unfold status_failure_text, exception_failure_text in H.
  simpl in H. discriminate H.
Qed.

(** A 200 payload is read into a value only when it has a first choice's
    message content. *)
Lemma first_choice_content_inv : forall payload content,
  first_choice_content payload = Ok content ->
  has_first_choice_content payload content.
Proof.
  intros payload content H. unfold first_choice_content in H.
  destruct payload as [| | | | |items|entries]; try discriminate H.
  simpl in H.
  destruct (dict_get entries "choices") as [choices|] eqn:E1; [|discriminate H].
  destruct choices as [| | | |s|items|centries]; try discriminate H.
  - (* a string: its first character cannot be indexed by a key *)
    simpl in H. destruct (seq_index (str_chars s) 0); discriminate H.
  - simpl in H.
    destruct items as [|choice others]; [discriminate H|].
    change (seq_index (choice :: others) 0) with (Some choice) in H.
    destruct choice as [| | | | |xs|choice]; try discriminate H.
    simpl in H.
    destruct (dict_get choice "message") as [message|] eqn:E2; [|discriminate H].
    destruct message as [| | | | |xs|message]; try discriminate H.
    simpl in H.
    destruct (dict_get message "content") as [c|] eqn:E3; [|discriminate H].
    inversion H; subst c.
    exists entries, choice, others, message. repeat split; assumption.
Qed.


Section Further.

Variable w : world.
Variable repr_other : pyval -> string.

(** X1. A [RequestException] raised by the post is returned by both
    functions as ["Request failed due to an exception: "] followed by the
    exception's message, unchanged; that text is never the text of a
    status failure. *)
Theorem X1_request_exception_text :
  forall (msg : string)
         (image_path model_name instruction : string) (image_bytes : list byte)
         (outputs : list pyval) (tr tr' : trace),
    (fs w image_path = Some image_bytes ->
     net w (tr ++ [Opened image_path])%list
       (describe_request model_name instruction image_bytes)
       = Raise (RequestException msg) ->
     snd (describe_image_with_model w image_path model_name instruction tr)
       = Ok (PyStr ("Request failed due to an exception: " ++ msg)))
    /\
    (net w tr' (judge_request (command_r_instruction repr_other outputs))
       = Raise (RequestException msg) ->
     snd (select_best_output_with_command_r w repr_other outputs tr')
       = Ok (PyStr ("Request failed due to an exception: " ++ msg)))
    /\
    (forall r, status_failure_text r
               <> "Request failed due to an exception: " ++ msg).
Proof.
  intros msg image_path model_name instruction image_bytes outputs tr tr'.
  split; [|split].
  - intros Hfs Hnet. rewrite describe_run, Hfs. cbv zeta. simpl snd.
    rewrite Hnet. reflexivity.
  - intros Hnet. rewrite select_run. cbv zeta. simpl snd.
    rewrite Hnet. reflexivity.
  - intros r. apply status_text_is_not_exception_text.
Qed.

(** X2. The call of [response.json()] is inside the [try] block: when the
    answer has status 200 and [json()] raises a [RequestException] (the
    decoding error of the library), both functions return the exception
    text instead of raising. *)
Theorem X2_json_error_is_returned_as_text :
  forall (r : response) (msg : string)
         (image_path model_name instruction : string) (image_bytes : list byte)
         (outputs : list pyval) (tr tr' : trace),
    status_code r = 200 ->
    json r = Raise (RequestException msg) ->
    (fs w image_path = Some image_bytes ->
     net w (tr ++ [Opened image_path])%list
       (describe_request model_name instruction image_bytes) = Ok r ->
     snd (describe_image_with_model w image_path model_name instruction tr)
       = Ok (PyStr ("Request failed due to an exception: " ++ msg)))
    /\
    (net w tr' (judge_request (command_r_instruction repr_other outputs)) = Ok r ->
     snd (select_best_output_with_command_r w repr_other outputs tr')
       = Ok (PyStr ("Request failed due to an exception: " ++ msg))).
Proof.
  intros r msg image_path model_name instruction image_bytes outputs tr tr'
    Hs Hj.
  assert (Ha : answer (Ok r)
               = Ok (PyStr ("Request failed due to an exception: " ++ msg))).
  { unfold answer. rewrite Hs, Hj. reflexivity. }
  split.
  - intros Hfs Hnet. rewrite describe_run, Hfs. cbv zeta. simpl snd.
    now rewrite Hnet.
  - intros Hnet. rewrite select_run. cbv zeta. simpl snd. now rewrite Hnet.
Qed.

(** X3. An exception that is not a [RequestException], raised by the post
    or by [response.json()] on a 200 answer, is not caught: both functions
    raise it unchanged. *)
Theorem X3_other_exceptions_propagate :
  forall (o : outcome response) (e : exn)
         (image_path model_name instruction : string) (image_bytes : list byte)
         (outputs : list pyval) (tr tr' : trace),
    uncaught e ->
    (o = Raise e \/ exists r, o = Ok r /\ status_code r = 200 /\ json r = Raise e) ->
    (fs w image_path = Some image_bytes ->
     net w (tr ++ [Opened image_path])%list
       (describe_request model_name instruction image_bytes) = o ->
     snd (describe_image_with_model w image_path model_name instruction tr)
       = Raise e)
    /\
    (net w tr' (judge_request (command_r_instruction repr_other outputs)) = o ->
     snd (select_best_output_with_command_r w repr_other outputs tr')
       = Raise e).
Proof.
  intros o e image_path model_name instruction image_bytes outputs tr tr'
    He Ho.
  assert (Ha : answer o = Raise e).
  { destruct Ho as [->|(r & -> & Hs & Hj)].
    - now apply answer_uncaught.
    - unfold answer. rewrite Hs, Hj. simpl.
      destruct e; simpl in He; try contradiction; reflexivity. }
  split.
  - intros Hfs Hnet. rewrite describe_run, Hfs. cbv zeta. simpl snd.
    now rewrite Hnet.
  - intros Hnet. rewrite select_run. cbv zeta. simpl snd. now rewrite Hnet.
Qed.

(** X4. Neither function retries: whatever the provider answers, the
    Extractor, given a readable image, opens it once and posts exactly one
    request, and the Selector opens nothing and posts exactly one
    request. *)
Theorem X4_one_request_per_call :
  forall (image_path model_name instruction : string) (image_bytes : list byte)
         (outputs : list pyval) (tr tr' : trace),
    (fs w image_path = Some image_bytes ->
     posts (fst (describe_image_with_model w image_path model_name instruction tr))
       = (posts tr ++ [describe_request model_name instruction image_bytes])%list
     /\ opens (fst (describe_image_with_model w image_path model_name instruction tr))
       = (opens tr ++ [image_path])%list)
    /\
    posts (fst (select_best_output_with_command_r w repr_other outputs tr'))
      = (posts tr' ++ [judge_request (command_r_instruction repr_other outputs)])%list
    /\
    opens (fst (select_best_output_with_command_r w repr_other outputs tr'))
      = opens tr'.
Proof.
  intros image_path model_name instruction image_bytes outputs tr tr'.
  split; [|split].
  - intros Hfs. rewrite describe_run, Hfs. cbv zeta. simpl fst.
    rewrite posts_app, opens_app. split; reflexivity.
  - rewrite select_run. cbv zeta. simpl fst. rewrite posts_app. reflexivity.
  - rewrite select_run. cbv zeta. simpl fst. rewrite opens_app. simpl.
    apply app_nil_r.
Qed.

(** X5. On a 200 answer with a decoded payload there are two cases only:
    the payload has a first choice's message content, and that content is
    returned; or it has none, and a [KeyError], [IndexError] or
    [TypeError] is raised.  So a value comes back only from a payload of
    the expected shape. *)
Theorem X5_success_payload_is_read_or_raises :
  forall (r : response) (payload : pyval)
         (image_path model_name instruction : string) (image_bytes : list byte)
         (tr : trace),
    status_code r = 200 ->
    json r = Ok payload ->
    fs w image_path = Some image_bytes ->
    net w (tr ++ [Opened image_path])%list
      (describe_request model_name instruction image_bytes) = Ok r ->
    (exists content,
       has_first_choice_content payload content
       /\ snd (describe_image_with_model w image_path model_name instruction tr)
          = Ok content)
    \/
    (exists e,
       lookup_error e
       /\ (forall content, ~ has_first_choice_content payload content)
       /\ snd (describe_image_with_model w image_path model_name instruction tr)
          = Raise e).
Proof.
  intros r payload image_path model_name instruction image_bytes tr
    Hs Hj Hfs Hnet.
  rewrite describe_run, Hfs. cbv zeta. simpl snd.
  rewrite Hnet, (answer_success _ _ Hs Hj).
  destruct (first_choice_content payload) as [content|e] eqn:E.
  - left. exists content. split; [|reflexivity].
    now apply first_choice_content_inv.
  - right. exists e. split; [|split; [|reflexivity]].
    + eapply first_choice_content_raises; eassumption.
    + intros content Hc. apply first_choice_content_ok in Hc. congruence.
Qed.

(** X6. Failures travel in the same channel as results: for every status
    failure there is a 200 answer for which the Extractor returns the very
    same value, so the caller cannot tell the two apart from what is
    returned. *)
Theorem X6_failure_text_can_be_a_success :
  forall (r : response) (files : string -> option (list byte))
         (refused : string -> option refusal)
         (image_path model_name instruction : string) (image_bytes : list byte)
         (tr : trace),
    status_code r <> 200 ->
    files image_path = Some image_bytes ->
    exists r',
      status_code r' = 200
      /\ snd (describe_image_with_model
                {| fs := files; blocked := refused; net := always (Ok r') |}
                image_path model_name instruction tr)
         = snd (describe_image_with_model
                  {| fs := files; blocked := refused; net := always (Ok r) |}
                  image_path model_name instruction tr).
Proof.
  intros r files refused image_path model_name instruction image_bytes tr Hs Hfs.
  exists (completion (status_failure_text r)). split; [reflexivity|].
  rewrite !describe_run. simpl fs. rewrite Hfs. cbv zeta. simpl snd.
  simpl net. unfold always.
  destruct (Z.eqb_spec (status_code r) 200); [contradiction|reflexivity].
Qed.

(** X7. The rendering of the candidates is ambiguous: a last candidate
    whose text holds a blank line and the label of the next position is
    rendered, and sent to the judge, exactly as two candidates. *)
Theorem X7_candidate_text_can_forge_an_option :
  forall (before : list pyval) (a b : string) (tr : trace),
    let forged :=
      a ++ nl ++ nl ++ "Option "
        ++ str_int (Z.of_nat (List.length before) + 2) ++ ":" ++ nl ++ b in
    command_r_instruction repr_other (before ++ [PyStr forged])
      = command_r_instruction repr_other (before ++ [PyStr a; PyStr b])
    /\ select_best_output_with_command_r w repr_other (before ++ [PyStr forged]) tr
       = select_best_output_with_command_r w repr_other
           (before ++ [PyStr a; PyStr b]) tr.
Proof.
  intros before a b tr forged.
  assert (H : command_r_instruction repr_other (before ++ [PyStr forged])
              = command_r_instruction repr_other (before ++ [PyStr a; PyStr b])).
  { unfold command_r_instruction. do 2 f_equal.
    rewrite !formatted_outputs_split. f_equal.
    unfold blocks_from, option_block, forged. simpl.
    replace (Z.of_nat (List.length before) + 1 + 1)
      with (Z.of_nat (List.length before) + 2) by lia.
    rewrite !append_assoc, !append_empty_r. reflexivity. }
  split; [exact H|].
  rewrite !select_run. cbv zeta. rewrite H. reflexivity.
Qed.

End Further.

(** * Further properties of the driver *)

Lemma prints_app : forall tr1 tr2 : trace,
  prints (tr1 ++ tr2)%list = (prints tr1 ++ prints tr2)%list.
Proof.
  intros tr1 tr2. induction tr1 as [|ev tr1 IH]; simpl; [reflexivity|].
  destruct ev; simpl; now rewrite IH.
Qed.

Lemma describe_request_uniform : forall model_name instruction image_bytes,
  uniform_request (describe_request model_name instruction image_bytes).
Proof. intros. repeat split. Qed.

Lemma judge_request_uniform : forall instruction,
  uniform_request (judge_request instruction).
Proof. intros. repeat split. Qed.

(** A trace splits in one way only at its request number [k]. *)
Lemma split_at_post : forall (b1 : trace) r1 a1 (b2 : trace) r2 a2,
  (b1 ++ Posted r1 :: a1)%list = (b2 ++ Posted r2 :: a2)%list ->
  List.length (posts b1) = List.length (posts b2) ->
  b1 = b2 /\ r1 = r2 /\ a1 = a2.
Proof.
  induction b1 as [|ev b1 IH]; intros r1 a1 b2 r2 a2 H Hlen.
  - destruct b2 as [|ev2 b2].
    + inversion H. repeat split.
    + simpl in H. inversion H; subst ev2. simpl in Hlen. discriminate Hlen.
  - destruct b2 as [|ev2 b2].
    + simpl in H. inversion H; subst ev. simpl in Hlen. discriminate Hlen.
    + simpl in H. inversion H; subst ev2.
      assert (Hlen' : List.length (posts b1) = List.length (posts b2))
        by (destruct ev; simpl in Hlen; congruence).
      match goal with
      | Ht : (b1 ++ _)%list = (b2 ++ _)%list |- _ =>
          destruct (IH _ _ _ _ _ Ht Hlen') as (-> & -> & ->)
      end.
      repeat split.
Qed.

Section DriverFurther.

Variable w : world.
Variable repr_other : pyval -> string.
Variable image_path instruction : string.

(** One turn of the loop, by what the file system and the provider give. *)
Lemma collect_outputs_step : forall model rest outputs tr,
  collect_outputs w repr_other image_path instruction (model :: rest) outputs tr
  = let before := nl ++ "=== Processing with " ++ description model ++ " ===" in
    match fs w image_path with
    | None =>
        ((tr ++ [Printed before] ++ [Opened image_path])%list,
         Raise (open_failure w image_path))
    | Some image_bytes =>
        let req := describe_request (name model) instruction image_bytes in
        let tr_done := (tr ++ [Printed before] ++ [Opened image_path; Posted req])%list in
        match answer (net w (tr ++ [Printed before] ++ [Opened image_path])%list req) with
        | Raise e => (tr_done, Raise e)
        | Ok output =>
            collect_outputs w repr_other image_path instruction rest
              (outputs ++ [output])%list
              (tr_done ++ [Printed (nl ++ "LaTeX output from " ++ description model
                                    ++ ":" ++ nl ++ py_str repr_other output ++ nl)])%list
        end
    end.
Proof.
  intros model rest outputs tr. cbv zeta.
  change (collect_outputs w repr_other image_path instruction (model :: rest) outputs tr)
    with (bind (print (nl ++ "=== Processing with " ++ description model ++ " ==="))
            (fun _ =>
               bind (describe_image_with_model w image_path (name model) instruction)
                 (fun output =>
                    bind (print (nl ++ "LaTeX output from " ++ description model
                                 ++ ":" ++ nl ++ py_str repr_other output ++ nl))
                      (fun _ =>
                         collect_outputs w repr_other image_path instruction rest
                           (outputs ++ [output])%list))) tr).
  unfold bind at 1. unfold print at 1. unfold bind at 1.
  rewrite describe_run.
  destruct (fs w image_path) as [image_bytes|].
  - cbv zeta. rewrite <- !app_assoc.
    destruct (answer _) as [output|e]; [|reflexivity].
    unfold bind at 1. unfold print at 1. rewrite <- !app_assoc. reflexivity.
  - rewrite <- !app_assoc. reflexivity.
Qed.

(** The lines the script prints around the call of the Selector. *)
Lemma run_script_run : forall ms tr,
  run_script w repr_other image_path instruction ms tr
  = match collect_outputs w repr_other image_path instruction ms [] tr with
    | (tr_loop, Raise e) => (tr_loop, Raise e)
    | (tr_loop, Ok outs) =>
        let selecting :=
          nl ++ "=== Selecting the best LaTeX output using Command-R ===" ++ nl in
        let req := judge_request (command_r_instruction repr_other outs) in
        match answer (net w (tr_loop ++ [Printed selecting])%list req) with
        | Raise e => ((tr_loop ++ [Printed selecting; Posted req])%list, Raise e)
        | Ok best =>
            ((tr_loop ++ [Printed selecting; Posted req;
                          Printed (nl ++ "=== Best LaTeX Table ===" ++ nl);
                          Printed (py_str repr_other best)])%list,
             Ok (outs, best))
        end
    end.
Proof.
  intros ms tr. unfold run_script. unfold bind at 1.
  destruct (collect_outputs w repr_other image_path instruction ms [] tr)
    as [tr_loop [outs|e]]; [|reflexivity].
  unfold bind at 1. unfold print at 1. unfold bind at 1.
  rewrite select_run. cbv zeta.
  destruct (answer _) as [best|e].
  - unfold bind, print, ret. rewrite <- !app_assoc. reflexivity.
  - rewrite <- !app_assoc. reflexivity.
Qed.

(** In any run of the loop the requests posted are the extraction requests
    of the first [k] providers, in order; [k] is the number of providers
    when the loop returns. *)
Lemma loop_posts_prefix : forall ms outputs tr,
  exists k image_bytes,
    (k <= List.length ms)%nat
    /\ (0 < k -> fs w image_path = Some image_bytes)%nat
    /\ posts (fst (collect_outputs w repr_other image_path instruction ms outputs tr))
       = (posts tr
          ++ List.map (fun model =>
                         describe_request (name model) instruction image_bytes)
               (firstn k ms))%list
    /\ (forall outs,
          snd (collect_outputs w repr_other image_path instruction ms outputs tr)
            = Ok outs -> k = List.length ms).
Proof.
  intros ms. induction ms as [|model rest IH]; intros outputs tr.
  - exists 0%nat, []. simpl. rewrite app_nil_r.
    repeat split; auto. intros H; inversion H.
  - rewrite collect_outputs_step. cbv zeta.
    destruct (fs w image_path) as [image_bytes|] eqn:Hfs.
    + destruct (answer _) as [output|e].
      * match goal with
        | |- context [collect_outputs _ _ _ _ rest ?o ?t] =>
            destruct (IH o t) as (k & bytes' & Hk & Hb & Hp & Hr)
        end.
        exists (S k), image_bytes.
        split; [simpl; lia|]. split; [auto|]. split.
        -- assert (Hm : List.map (fun m => describe_request (name m) instruction bytes')
                          (firstn k rest)
                        = List.map (fun m => describe_request (name m) instruction
                                               image_bytes) (firstn k rest)).
           { destruct k as [|k]; [reflexivity|].
             assert (E : Some image_bytes = Some bytes') by (apply Hb; lia).
             now inversion E. }
           rewrite Hp, Hm. rewrite !posts_app. simpl.
           rewrite !app_nil_r, <- !app_assoc. reflexivity.
        -- intros outs H. simpl. f_equal. eapply Hr; eassumption.
      * exists 1%nat, image_bytes.
        split; [simpl; lia|]. split; [auto|]. split.
        -- simpl. rewrite !posts_app. simpl. rewrite ?app_nil_r. reflexivity.
        -- simpl. discriminate.
    + exists 0%nat, []. split; [lia|]. split; [lia|]. split.
      * simpl. rewrite !posts_app. simpl. rewrite ?app_nil_r. reflexivity.
      * simpl. discriminate.
Qed.

(** The loop only adds to the trace. *)
Lemma extracted_extends : forall tr ms outs tr_end,
  extracted_in_order w image_path instruction tr ms outs tr_end ->
  exists suffix, tr_end = (tr ++ suffix)%list.
Proof.
  induction 1 as [tr|tr model rest output outputs before after tr_done tr_end
                    Hcall _ IH].
  - exists []. now rewrite app_nil_r.
  - destruct IH as [suffix ->].
    rewrite describe_run in Hcall.
    destruct (fs w image_path) as [image_bytes|]; [|discriminate Hcall].
    inversion Hcall; subst tr_done.
    eexists. rewrite <- !app_assoc. reflexivity.
Qed.

(** The call for the provider at index [k]: the request it posted is the
    [k]-th request the loop added to the trace, and the output collected
    at index [k] is read from the outcome the provider gave to it. *)
Lemma extracted_nth : forall tr ms outs tr_end,
  extracted_in_order w image_path instruction tr ms outs tr_end ->
  forall k m,
    nth_error ms k = Some m ->
    exists tr_k image_bytes out suffix,
      tr_end = (tr_k ++ Posted (describe_request (name m) instruction image_bytes)
                       :: suffix)%list
      /\ List.length (posts tr_k) = (List.length (posts tr) + k)%nat
      /\ nth_error outs k = Some out
      /\ answer (net w tr_k (describe_request (name m) instruction image_bytes))
         = Ok out.
Proof.
  induction 1 as [tr|tr model rest output outputs before after tr_done tr_end
                    Hcall Hrest IH]; intros k m Hk.
  - destruct k; discriminate Hk.
  - destruct k as [|k]; simpl in Hk.
    + inversion Hk; subst m.
      destruct (extracted_extends _ _ _ _ Hrest) as [suffix ->].
      rewrite describe_run in Hcall.
      destruct (fs w image_path) as [image_bytes|]; [|discriminate Hcall].
      cbv zeta in Hcall. inversion Hcall as [[Htr Hout]].
      exists ((tr ++ [Printed before]) ++ [Opened image_path])%list,
        image_bytes, output, (Printed after :: suffix).
      split; [rewrite <- !app_assoc; reflexivity|].
      split; [rewrite !posts_app; simpl; rewrite !app_nil_r; lia|].
      split; [reflexivity|exact Hout].
    + destruct (IH _ _ Hk) as (tr_k & image_bytes & out & suffix & -> & Hlen & Hout & Ha).
      exists tr_k, image_bytes, out, suffix.
      split; [reflexivity|]. split; [|split; assumption].
      rewrite Hlen. rewrite describe_run in Hcall.
      destruct (fs w image_path) as [bytes|]; [|discriminate Hcall].
      inversion Hcall; subst tr_done.
      rewrite !posts_app. simpl. rewrite !length_app. simpl. lia.
Qed.

(** X8. In every run of the script, also one that ends in an exception,
    the requests posted are the extraction requests of an initial segment
    of the provider list, in list order and one per provider, followed by
    the judge request exactly when the loop over the providers returned;
    the judge is never asked before every provider has been processed. *)
Theorem X8_requests_follow_the_provider_list :
  forall (ms : list model_entry) (tr : trace),
    exists k image_bytes,
      (k <= List.length ms)%nat
      /\ (0 < k -> fs w image_path = Some image_bytes)%nat
      /\ posts (fst (run_script w repr_other image_path instruction ms tr))
         = (posts tr
            ++ List.map (fun model =>
                           describe_request (name model) instruction image_bytes)
                 (firstn k ms)
            ++ match snd (collect_outputs w repr_other image_path instruction
                            ms [] tr) with
               | Ok outs => [judge_request (command_r_instruction repr_other outs)]
               | Raise _ => []
               end)%list
      /\ (forall outs,
            snd (collect_outputs w repr_other image_path instruction ms [] tr)
              = Ok outs -> k = List.length ms).
Proof.
  intros ms tr.
  destruct (loop_posts_prefix ms [] tr) as (k & image_bytes & Hk & Hb & Hp & Hr).
  exists k, image_bytes.
  split; [exact Hk|]. split; [exact Hb|]. split; [|exact Hr].
  rewrite run_script_run.
  destruct (collect_outputs w repr_other image_path instruction ms [] tr)
    as [tr_loop [outs|e]]; simpl in Hp; simpl snd; cbv zeta.
  - destruct (answer _) as [best|e]; simpl fst;
      rewrite posts_app, Hp; simpl; rewrite <- app_assoc; reflexivity.
  - simpl fst. rewrite Hp, app_nil_r. reflexivity.
Qed.

(** X9. Every request the script posts, in every run, goes to the chat
    completions endpoint with the bearer credential and the JSON content
    type as headers and a timeout of 60. *)
Theorem X9_every_request_is_uniform :
  forall (ms : list model_entry) (tr : trace),
    exists added,
      posts (fst (run_script w repr_other image_path instruction ms tr))
        = (posts tr ++ added)%list
      /\ Forall uniform_request added.
Proof.
  intros ms tr.
  destruct (loop_posts_prefix ms [] tr) as (k & image_bytes & _ & _ & Hp & _).
  rewrite run_script_run.
  destruct (collect_outputs w repr_other image_path instruction ms [] tr)
    as [tr_loop [outs|e]]; simpl in Hp; cbv zeta.
  - exists (List.map (fun model =>
                        describe_request (name model) instruction image_bytes)
              (firstn k ms)
            ++ [judge_request (command_r_instruction repr_other outs)])%list.
    split.
    + destruct (answer _) as [best|e]; simpl fst;
        rewrite posts_app, Hp; simpl; rewrite <- app_assoc; reflexivity.
    + apply Forall_app. split.
      * apply Forall_forall. intros req Hin.
        apply in_map_iff in Hin. destruct Hin as (m & <- & _).
        apply describe_request_uniform.
      * constructor; [apply judge_request_uniform|constructor].
  - eexists. split; [simpl fst; exact Hp|].
    apply Forall_forall. intros req Hin.
    apply in_map_iff in Hin. destruct Hin as (m & <- & _).
    apply describe_request_uniform.
Qed.



(** X12. When the script runs to its end, what it prints after the loop
    are the announcement of the selection, the heading of the result and,
    as its last line, the text of the value the Selector returned. *)
Theorem X12_selected_text_is_printed_last :
  forall (ms : list model_entry) (tr : trace) (outs : list pyval) (best : pyval),
    snd (run_script w repr_other image_path instruction ms tr) = Ok (outs, best) ->
    prints (fst (run_script w repr_other image_path instruction ms tr))
    = (prints (fst (collect_outputs w repr_other image_path instruction ms [] tr))
       ++ [ (nl ++ "=== Selecting the best LaTeX output using Command-R ==="
                ++ nl)%string;
            (nl ++ "=== Best LaTeX Table ===" ++ nl)%string;
            py_str repr_other best ])%list.
Proof.
  intros ms tr outs best H.
  rewrite run_script_run in H |- *.
  destruct (collect_outputs w repr_other image_path instruction ms [] tr)
    as [tr_loop [outs'|e]]; [|discriminate H].
  cbv zeta in H |- *.
  destruct (answer _) as [best'|e]; [|discriminate H].
  inversion H; subst outs' best'.
  simpl fst. rewrite prints_app. reflexivity.
Qed.

(** X13. The failure of one provider reaches the judge as a candidate:
    when the request posted for the provider at position k+1, the
    (k+1)-th request of the loop, is answered with a status other than 200
    and the loop returns, the output collected at that position is the
    failure text, and the instruction carried by the judge request, the
    last request the script posts, holds it as the block ["Option k+1"]. *)
Theorem X13_status_failure_reaches_the_judge :
  forall (ms : list model_entry) (tr : trace) (outs : list pyval)
         (k : nat) (m : model_entry) (r : response) (image_bytes : list byte)
         (before after : trace),
    snd (collect_outputs w repr_other image_path instruction ms [] tr) = Ok outs ->
    nth_error ms k = Some m ->
    fst (collect_outputs w repr_other image_path instruction ms [] tr)
      = (before ++ Posted (describe_request (name m) instruction image_bytes)
                :: after)%list ->
    List.length (posts before) = (List.length (posts tr) + k)%nat ->
    net w before (describe_request (name m) instruction image_bytes) = Ok r ->
    status_code r <> 200 ->
    nth_error outs k = Some (PyStr (status_failure_text r))
    /\ exists earlier req judge_instruction,
         posts (fst (run_script w repr_other image_path instruction ms tr))
           = (earlier ++ [req])%list
         /\ payload_instruction (data req) = Ok (PyStr judge_instruction)
         /\ occurs_in ("Option " ++ str_int (Z.of_nat k + 1) ++ ":" ++ nl
                       ++ status_failure_text r) judge_instruction.
Proof.
  intros ms tr outs k m r image_bytes before after Houts Hk Hsplit Hlen Hnet Hs.
  destruct (collect_outputs w repr_other image_path instruction ms [] tr)
    as [tr_loop o] eqn:E. simpl in Houts, Hsplit. subst o.
  destruct (collect_outputs_extracted _ _ _ _ _ _ _ _ _ E) as (collected & Hc & Hex).
  simpl in Hc. subst collected.
  destruct (extracted_nth _ _ _ _ Hex _ _ Hk)
    as (tr_k & bytes' & out & suffix & Htr & Hlen' & Hout & Ha).
  rewrite Hsplit in Htr.
  destruct (split_at_post _ _ _ _ _ _ Htr) as (Hb & Hr & _);
    [rewrite Hlen, Hlen'; reflexivity|].
  subst tr_k. rewrite <- Hr in Ha.
  rewrite Hnet, (answer_status_failure _ Hs) in Ha.
  inversion Ha; subst out.
  split; [exact Hout|].
  rewrite run_script_run, E. cbv zeta.
  exists (posts tr_loop),
    (judge_request (command_r_instruction repr_other outs)),
    (command_r_instruction repr_other outs).
  split.
  - destruct (answer _); simpl fst; rewrite posts_app; reflexivity.
  - split; [reflexivity|].
    apply (option_block_in_instruction repr_other _ _ _ Hout).
Qed.

End DriverFurther.

(** * Further properties of the base64 encoding *)

Example b64decode_examples :
  b64decode "Zm9vYmFy" = Some (list_byte_of_string "foobar") /\
  b64decode "Zm9vYg==" = Some (list_byte_of_string "foob") /\
  b64decode "Zm9vYmE=" = Some (list_byte_of_string "fooba") /\
  b64decode "/9j/4A==" = Some [xff; xd8; xff; xe0] /\
  b64decode "Zm9" = None /\
  b64decode "Zm9v!A==" = None.
Proof. repeat split. Qed.

Lemma land_63_bound : forall x : N, (N.land x 63 < 64)%N.
Proof.
  intros x. change 63%N with (N.ones 6). rewrite N.land_ones.
  apply N.mod_lt. discriminate.
Qed.

(** A check that holds on 0..63 holds for every 6-bit value. *)
Lemma below_64 : forall f : N -> bool,
  forallb f (List.map N.of_nat (seq 0 64)) = true ->
  forall m : N, (m < 64)%N -> f m = true.
Proof.
  intros f H m Hm. rewrite forallb_forall in H. apply H.
  apply in_map_iff. exists (N.to_nat m). split.
  - apply N2Nat.id.
  - apply in_seq. lia.
Qed.

(** The character of a 6-bit value is in the alphabet, at that position. *)
Lemma b64_char_index : forall x : N,
  b64_index (b64_char x) = Some (N.land x 63)
  /\ Ascii.eqb (b64_char x) "=" = false
  /\ In (b64_char x) (list_ascii_of_string b64_alphabet).
Proof.
  intros x. unfold b64_char.
  pose proof (land_63_bound x) as Hb.
  generalize dependent (N.land x 63). intros m Hm.
  set (c := match get (N.to_nat m) b64_alphabet with
            | Some c => c
            | None => "="%char
            end).
  pose (f := fun m : N =>
               let c := match get (N.to_nat m) b64_alphabet with
                        | Some c => c
                        | None => "="%char
                        end in
               match b64_index c with
               | Some i => N.eqb i m
               | None => false
               end
               && negb (Ascii.eqb c "=")
               && existsb (Ascii.eqb c) (list_ascii_of_string b64_alphabet)).
  assert (Hf : f m = true) by (apply below_64; [vm_compute; reflexivity|exact Hm]).
  unfold f in Hf. cbv zeta in Hf. fold c in Hf.
  apply andb_prop in Hf. destruct Hf as [Hf H3].
  apply andb_prop in Hf. destruct Hf as [H1 H2].
  split; [|split].
  - destruct (b64_index c) as [i|]; [|discriminate H1].
    apply N.eqb_eq in H1. now subst i.
  - now apply negb_true_iff in H2.
  - apply existsb_exists in H3. destruct H3 as (d & Hin & Hd).
    apply Ascii.eqb_eq in Hd. now subst d.
Qed.

Lemma lor_shuffle : forall a b c d : N,
  N.lor (N.lor a b) (N.lor c d) = N.lor (N.lor a c) (N.lor b d).
Proof.
  intros a b c d. apply N.bits_inj. intros k. rewrite !N.lor_spec.
  destruct (N.testbit a k), (N.testbit b k), (N.testbit c k), (N.testbit d k);
    reflexivity.
Qed.

(** The bytes of a group are read bit by bit: they distribute over [lor]. *)
Lemma group_byte1_lor : forall x y,
  group_byte1 (N.lor x y) = N.lor (group_byte1 x) (group_byte1 y).
Proof.
  intros x y. unfold group_byte1.
  rewrite !N.shiftr_lor, !N.land_lor_distr_l, N.shiftl_lor, N.shiftr_lor.
  apply lor_shuffle.
Qed.

Lemma group_byte2_lor : forall x y,
  group_byte2 (N.lor x y) = N.lor (group_byte2 x) (group_byte2 y).
Proof.
  intros x y. unfold group_byte2.
  rewrite !N.shiftr_lor, !N.land_lor_distr_l, N.shiftl_lor, N.shiftr_lor.
  apply lor_shuffle.
Qed.

Lemma group_byte3_lor : forall x y,
  group_byte3 (N.lor x y) = N.lor (group_byte3 x) (group_byte3 y).
Proof.
  intros x y. unfold group_byte3.
  rewrite !N.shiftr_lor, !N.land_lor_distr_l, N.shiftl_lor.
  apply lor_shuffle.
Qed.

(** Where each byte of a group lands. *)
Lemma group_of_first : forall a : byte,
  group_byte1 (N.shiftl (Byte.to_N a) 16) = Byte.to_N a
  /\ group_byte2 (N.shiftl (Byte.to_N a) 16) = 0%N
  /\ group_byte3 (N.shiftl (Byte.to_N a) 16) = 0%N.
Proof. intros a. destruct a; repeat split. Qed.

Lemma group_of_second : forall b : byte,
  group_byte1 (N.shiftl (Byte.to_N b) 8) = 0%N
  /\ group_byte2 (N.shiftl (Byte.to_N b) 8) = Byte.to_N b
  /\ group_byte3 (N.shiftl (Byte.to_N b) 8) = 0%N.
Proof. intros b. destruct b; repeat split. Qed.

Lemma group_of_third : forall c : byte,
  group_byte1 (Byte.to_N c) = 0%N
  /\ group_byte2 (Byte.to_N c) = 0%N
  /\ group_byte3 (Byte.to_N c) = Byte.to_N c.
Proof. intros c. destruct c; repeat split. Qed.

Lemma byte_of_to_N : forall a : byte, byte_of_N (Byte.to_N a) = a.
Proof. intros a. unfold byte_of_N. now rewrite Byte.of_to_N. Qed.

Lemma b64decode_chars : forall c1 c2 c3 c4 rest,
  b64decode (String c1 (String c2 (String c3 (String c4 rest))))
  = match b64_index c1, b64_index c2 with
    | Some i1, Some i2 =>
        let b1 := byte_of_N (N.lor (N.shiftl i1 2) (N.shiftr i2 4)) in
        if Ascii.eqb c3 "=" then
          if Ascii.eqb c4 "=" then
            match rest with
            | EmptyString => Some [b1]
            | _ => None
            end
          else None
        else
          match b64_index c3 with
          | None => None
          | Some i3 =>
              let b2 := byte_of_N (N.lor (N.shiftl (N.land i2 15) 4)
                                         (N.shiftr i3 2)) in
              if Ascii.eqb c4 "=" then
                match rest with
                | EmptyString => Some [b1; b2]
                | _ => None
                end
              else
                match b64_index c4 with
                | None => None
                | Some i4 =>
                    let b3 := byte_of_N (N.lor (N.shiftl (N.land i3 3) 6) i4) in
                    match b64decode rest with
                    | Some bs => Some (b1 :: b2 :: b3 :: bs)
                    | None => None
                    end
                end
          end
    | _, _ => None
    end.
Proof. reflexivity. Qed.

Ltac read_b64_chars :=
  rewrite b64decode_chars;
  repeat rewrite (proj1 (b64_char_index _));
  repeat rewrite (proj1 (proj2 (b64_char_index _)));
  cbv zeta.

(** Reading back a full group, and a last group of two bytes or one. *)
Lemma b64decode_group : forall n rest,
  b64decode (String (b64_char (N.shiftr n 18))
               (String (b64_char (N.shiftr n 12))
                  (String (b64_char (N.shiftr n 6))
                     (String (b64_char n) rest))))
  = match b64decode rest with
    | Some bs =>
        Some (byte_of_N (group_byte1 n) :: byte_of_N (group_byte2 n)
              :: byte_of_N (group_byte3 n) :: bs)
    | None => None
    end.
Proof. intros n rest. read_b64_chars. reflexivity. Qed.

Lemma b64decode_two : forall n,
  b64decode (String (b64_char (N.shiftr n 18))
               (String (b64_char (N.shiftr n 12))
                  (String (b64_char (N.shiftr n 6)) "=")))
  = Some [byte_of_N (group_byte1 n); byte_of_N (group_byte2 n)].
Proof. intros n. read_b64_chars. reflexivity. Qed.

Lemma b64decode_one : forall n,
  b64decode (String (b64_char (N.shiftr n 18))
               (String (b64_char (N.shiftr n 12)) "=="))
  = Some [byte_of_N (group_byte1 n)].
Proof. intros n. read_b64_chars. reflexivity. Qed.

(** Decoding what [b64encode] wrote gives the bytes back. *)
Lemma b64decode_b64encode : forall bs, b64decode (b64encode bs) = Some bs.
Proof.
  induction bs as [|a|a b|a b c rest IH] using list_ind3.
  - reflexivity.
  - change (b64encode [a])
      with (let n := N.shiftl (Byte.to_N a) 16 in
            String (b64_char (N.shiftr n 18))
              (String (b64_char (N.shiftr n 12)) "==")).
    cbv zeta. rewrite b64decode_one.
    rewrite (proj1 (group_of_first a)), byte_of_to_N. reflexivity.
  - change (b64encode [a; b])
      with (let n := N.lor (N.shiftl (Byte.to_N a) 16)
                       (N.shiftl (Byte.to_N b) 8) in
            String (b64_char (N.shiftr n 18))
              (String (b64_char (N.shiftr n 12))
                 (String (b64_char (N.shiftr n 6)) "="))).
    cbv zeta. rewrite b64decode_two.
    rewrite group_byte1_lor, group_byte2_lor.
    destruct (group_of_first a) as (-> & -> & _).
    destruct (group_of_second b) as (-> & -> & _).
    rewrite N.lor_0_r, N.lor_0_l, !byte_of_to_N. reflexivity.
  - change (b64encode (a :: b :: c :: rest))
      with (let n := N.lor (N.lor (N.shiftl (Byte.to_N a) 16)
                              (N.shiftl (Byte.to_N b) 8)) (Byte.to_N c) in
            String (b64_char (N.shiftr n 18))
              (String (b64_char (N.shiftr n 12))
                 (String (b64_char (N.shiftr n 6))
                    (String (b64_char n) (b64encode rest))))).
    cbv zeta. rewrite b64decode_group, IH.
    rewrite !group_byte1_lor, !group_byte2_lor, !group_byte3_lor.
    destruct (group_of_first a) as (-> & -> & ->).
    destruct (group_of_second b) as (-> & -> & ->).
    destruct (group_of_third c) as (-> & -> & ->).
    rewrite !N.lor_0_r, !N.lor_0_l, !byte_of_to_N. reflexivity.
Qed.

(** X14. The base64 text loses nothing of the image: decoding the
    encoding of any bytes gives these bytes back, so two files are encoded
    to the same text only if they hold the same bytes. *)
Theorem X14_base64_round_trip :
  forall bs bs' : list byte,
    b64decode (b64encode bs) = Some bs
    /\ (b64encode bs = b64encode bs' -> bs = bs').
Proof.
  intros bs bs'. split; [apply b64decode_b64encode|].
  intros H.
  assert (E : Some bs = Some bs')
    by (rewrite <- (b64decode_b64encode bs), <- (b64decode_b64encode bs'), H;
        reflexivity).
  now inversion E.
Qed.

(** X15. The encoding of n bytes has 4 * ceil(n / 3) characters, each a
    letter, a digit, [+], [/] or the padding [=]: nothing in it needs
    escaping inside the data URL or the JSON payload. *)
Theorem X15_base64_text_shape :
  forall bs : list byte,
    String.length (b64encode bs) = (4 * ((List.length bs + 2) / 3))%nat
    /\ all_chars b64_symbol (b64encode bs).
Proof.
  intros bs. split; [apply b64encode_length|].
  assert (Hc : forall x, b64_symbol (b64_char x))
    by (intros x; left; apply (b64_char_index x)).
  assert (Hp : b64_symbol "=") by (right; reflexivity).
  induction bs as [|a|a b|a b c rest IH] using list_ind3.
  - exact I.
  - repeat split; auto.
  - repeat split; auto.
  - change (b64encode (a :: b :: c :: rest))
      with (let n := N.lor (N.lor (N.shiftl (Byte.to_N a) 16)
                              (N.shiftl (Byte.to_N b) 8)) (Byte.to_N c) in
            String (b64_char (N.shiftr n 18))
              (String (b64_char (N.shiftr n 12))
                 (String (b64_char (N.shiftr n 6))
                    (String (b64_char n) (b64encode rest))))).
    cbv zeta. repeat split; auto.
Qed.

(** X16. The extraction request determines what it was built from: two
    calls post the same request only for the same model name, the same
    instruction and images with the same bytes. *)
Theorem X16_extraction_request_is_injective :
  forall (model_name instruction model_name' instruction' : string)
         (image_bytes image_bytes' : list byte),
    describe_request model_name instruction image_bytes
      = describe_request model_name' instruction' image_bytes' ->
    model_name = model_name'
    /\ instruction = instruction'
    /\ image_bytes = image_bytes'.
Proof.
  intros model_name instruction model_name' instruction'
    image_bytes image_bytes' H.
  unfold describe_request, describe_payload in H.
  inversion H as [[Hm Hi Hu]].
  repeat split; try assumption.
  assert (E : Some image_bytes = Some image_bytes')
    by (rewrite <- (b64decode_b64encode image_bytes),
          <- (b64decode_b64encode image_bytes'), Hu; reflexivity).
  now inversion E.
Qed.

(** * The further properties at concrete inputs *)

Lemma X1_witness :
  snd (describe_image_with_model world_timeout image_path
         "mistralai/pixtral-12b" instruction [])
  = Ok (PyStr "Request failed due to an exception: Read timed out. (read timeout=60)")
  /\ snd (select_best_output_with_command_r world_timeout repr_object
            scenario_outputs [])
     = Ok (PyStr "Request failed due to an exception: Read timed out. (read timeout=60)").
Proof.
  destruct (X1_request_exception_text world_timeout repr_object
              "Read timed out. (read timeout=60)" image_path
              "mistralai/pixtral-12b" instruction jpeg_bytes
              scenario_outputs [] []) as (Hd & Hs & _).
  split; [apply Hd | apply Hs]; reflexivity.
Defined.

Lemma X2_witness :
  snd (describe_image_with_model world_not_json image_path
         "mistralai/pixtral-12b" instruction [])
  = Ok (PyStr "Request failed due to an exception: Expecting value: line 1 column 1 (char 0)")
  /\ snd (select_best_output_with_command_r world_not_json repr_object
            scenario_outputs [])
     = Ok (PyStr "Request failed due to an exception: Expecting value: line 1 column 1 (char 0)").
Proof.
  destruct (X2_json_error_is_returned_as_text world_not_json repr_object
              not_json "Expecting value: line 1 column 1 (char 0)" image_path
              "mistralai/pixtral-12b" instruction jpeg_bytes
              scenario_outputs [] [] eq_refl eq_refl) as (Hd & Hs).
  split; [apply Hd | apply Hs]; reflexivity.
Defined.

Lemma X3_witness :
  uncaught broken_pipe
  /\ snd (describe_image_with_model world_broken_pipe image_path
            "mistralai/pixtral-12b" instruction []) = Raise broken_pipe
  /\ snd (select_best_output_with_command_r world_broken_pipe repr_object
            scenario_outputs []) = Raise broken_pipe.
Proof.
  split; [exact I|].
  destruct (X3_other_exceptions_propagate world_broken_pipe repr_object
              (Raise broken_pipe) broken_pipe image_path
              "mistralai/pixtral-12b" instruction jpeg_bytes
              scenario_outputs [] [] I (or_introl eq_refl)) as (Hd & Hs).
  split; [apply Hd | apply Hs]; reflexivity.
Defined.

Lemma X4_witness :
  posts (fst (describe_image_with_model world_500 image_path
                "mistralai/pixtral-12b" instruction []))
  = [describe_request "mistralai/pixtral-12b" instruction jpeg_bytes]
  /\ opens (fst (describe_image_with_model world_500 image_path
                   "mistralai/pixtral-12b" instruction []))
     = [image_path].
Proof.
  exact (proj1 (X4_one_request_per_call world_500 repr_object image_path
                  "mistralai/pixtral-12b" instruction jpeg_bytes
                  scenario_outputs [] []) eq_refl).
Defined.

Lemma X5_witness :
  (exists content,
     has_first_choice_content (PyDict [ ("choices", PyStr "none") ]) content
     /\ snd (describe_image_with_model world_choices_text image_path
               "mistralai/pixtral-12b" instruction []) = Ok content)
  \/
  (exists e,
     lookup_error e
     /\ (forall content,
           ~ has_first_choice_content (PyDict [ ("choices", PyStr "none") ]) content)
     /\ snd (describe_image_with_model world_choices_text image_path
               "mistralai/pixtral-12b" instruction []) = Raise e).
Proof.
  exact (X5_success_payload_is_read_or_raises world_choices_text choices_text
           (PyDict [ ("choices", PyStr "none") ]) image_path
           "mistralai/pixtral-12b" instruction jpeg_bytes []
           eq_refl eq_refl eq_refl eq_refl).
Defined.

Lemma X6_witness :
  status_code server_error <> 200
  /\ exists r',
       status_code r' = 200
       /\ snd (describe_image_with_model
                 {| fs := one_file image_path jpeg_bytes; blocked := nothing_blocked;
     net := always (Ok r') |}
                 image_path "mistralai/pixtral-12b" instruction [])
          = snd (describe_image_with_model
                   {| fs := one_file image_path jpeg_bytes;
                      blocked := nothing_blocked;
                      net := always (Ok server_error) |}
                   image_path "mistralai/pixtral-12b" instruction []).
Proof.
  assert (Hs : status_code server_error <> 200) by (simpl; lia).
  split; [exact Hs|].
  exact (X6_failure_text_can_be_a_success server_error
           (one_file image_path jpeg_bytes) nothing_blocked image_path "mistralai/pixtral-12b"
           instruction jpeg_bytes [] Hs eq_refl).
Defined.




Lemma X12_witness :
  snd (main world_ensemble repr_object []) = Ok (ensemble_outputs, PyStr "<table A>")
  /\ prints (fst (main world_ensemble repr_object []))
     = (prints (fst (collect_outputs world_ensemble repr_object image_path
                       instruction models [] []))
        ++ [ (nl ++ "=== Selecting the best LaTeX output using Command-R ==="
                 ++ nl)%string;
             (nl ++ "=== Best LaTeX Table ===" ++ nl)%string;
             "<table A>" ])%list.
Proof.
  split; [reflexivity|].
  exact (X12_selected_text_is_printed_last world_ensemble repr_object
           image_path instruction models [] ensemble_outputs (PyStr "<table A>")
           eq_refl).
Defined.

Lemma X13_witness :
  nth_error models 1
  = Some {| name := "qwen/qwen-2-vl-7b-instruct"; description := "Qwen-2V" |}
  /\ status_code server_error <> 200
  /\ nth_error ensemble_outputs 1 = Some (PyStr (status_failure_text server_error))
  /\ exists earlier req judge_instruction,
       posts (fst (main world_ensemble repr_object [])) = (earlier ++ [req])%list
       /\ payload_instruction (data req) = Ok (PyStr judge_instruction)
       /\ occurs_in ("Option " ++ str_int 2 ++ ":" ++ nl
                     ++ status_failure_text server_error) judge_instruction.
Proof.
  split; [reflexivity|].
  assert (Hs : status_code server_error <> 200) by (simpl; lia).
  split; [exact Hs|].
  exact (X13_status_failure_reaches_the_judge world_ensemble repr_object
           image_path instruction models [] ensemble_outputs 1%nat
           {| name := "qwen/qwen-2-vl-7b-instruct"; description := "Qwen-2V" |}
           server_error jpeg_bytes
           (firstn 6 (fst (collect_outputs world_ensemble repr_object image_path
                             instruction models [] [])))
           (skipn 7 (fst (collect_outputs world_ensemble repr_object image_path
                            instruction models [] [])))
           eq_refl eq_refl eq_refl eq_refl eq_refl Hs).
Defined.

Lemma X14_witness :
  b64encode png_bytes = "iVBORw0KGgo="
  /\ b64decode "iVBORw0KGgo=" = Some png_bytes
  /\ (b64encode png_bytes = b64encode png_bytes -> png_bytes = png_bytes).
Proof.
  split; [reflexivity|].
  destruct (X14_base64_round_trip png_bytes png_bytes) as [Hd Hi].
  split; [exact Hd | exact Hi].
Defined.

Lemma X16_witness :
  "qwen/qwen-2-vl-7b-instruct" = "qwen/qwen-2-vl-7b-instruct"
  /\ instruction = instruction
  /\ png_bytes = png_bytes.
Proof.
  exact (X16_extraction_request_is_injective "qwen/qwen-2-vl-7b-instruct"
           instruction "qwen/qwen-2-vl-7b-instruct" instruction
           png_bytes png_bytes eq_refl).
Defined.
